(** * express-server-with-typescript: the greeter service of [src/app.ts]

    The program is five statements of glue around two dependencies
    (package.json: [dotenv ^16.4.5], [express ^4.19.2]) and the Node runtime:

<<
    dotenv.config()
    const app = express()
    const port = process.env.PORT || 3300
    app.get("/", (req, res) => { res.send("Hello World! 3") })
    app.listen(port, () => { console.log(`Server running on http://localhost:${port}`) })
>>

    The development has one module per collaborator ([JS], [Dotenv], [Node],
    [Express], [Http]) holding the part of its behaviour that the five statements
    exercise, as the pinned versions of those packages define it, and a
    module [App] that is the program itself, statement by statement.  The
    theorems about the program follow the modules.

    Kept out of the picture: response headers other than the [ETag]
    validator, the text of the framework's error page, the syntax of the
    [.env] file, and requests that Node's HTTP parser refuses before they
    become a request object. *)

From Stdlib Require Import Ascii String ZArith Lia.
From stdpp Require Import base strings gmap list pretty.

Open Scope string_scope.
Open Scope Z_scope.

(** * JavaScript values and operators used by the program *)
Module JS.

(** The values that can flow into [port]: [process.env.PORT] is a string
    or [undefined], the literal [3300] is a number. *)
Inductive value : Type :=
| VUndefined
| VString (s : string)
| VNumber (n : Z).

Global Instance value_eq_dec : EqDecision value.
Proof. solve_decision. Defined.

(** ToBoolean: [undefined], the empty string and [0] are falsy. *)
Definition truthy (v : value) : bool :=
  match v with
  | VUndefined => false
  | VString s => negb (String.eqb s "")
  | VNumber n => negb (n =? 0)
  end.

(** [a || b]: the left operand when it is truthy, the right one otherwise. *)
Definition or (a b : value) : value := if truthy a then a else b.

(** Property read [obj.k] on [process.env], whose own properties are all
    strings; a missing property reads as [undefined]. *)
Definition member (obj : gmap string string) (k : string) : value :=
  match obj !! k with
  | Some s => VString s
  | None => VUndefined
  end.

(** ToString, as applied by a template literal [`${v}`].  Numbers are
    integers here and print in decimal. *)
Definition to_string (v : value) : string :=
  match v with
  | VUndefined => "undefined"
  | VString s => s
  | VNumber n => pretty n
  end.

(** Truthiness of a string-or-undefined header or variable ([!x] is its
    negation). *)
Definition truthy_str (o : option string) : bool :=
  match o with
  | Some s => negb (String.eqb s "")
  | None => false
  end.

End JS.

(** * dotenv: [config()] *)
Module Dotenv.

(** [populate(process.env, parsed)] with the default [override = false]:
    a key of the parsed file is written only when [process.env] does not
    already own it; keys already set (even to the empty string) win. *)
Definition populate (processEnv parsed : gmap string string) : gmap string string :=
  processEnv ∪ parsed.

(** [config()]: reads [.env] from the working directory.  [file] is the
    key/value object [parse] makes of it, [None] when the file cannot be
    read; that failure is returned in the result object, not thrown, and
    [process.env] stays as it was.  (The encrypted-vault path, taken only
    under [DOTENV_KEY], is outside this model.) *)
Definition config (file : option (gmap string string))
    (processEnv : gmap string string) : gmap string string :=
  match file with
  | Some parsed => populate processEnv parsed
  | None => processEnv
  end.

End Dotenv.

(** * Node: what [server.listen(port, cb)] makes of its first argument *)
Module Node.
Import JS.

Definition is_digit (c : ascii) : bool :=
  let n := Z.of_nat (nat_of_ascii c) in (48 <=? n) && (n <=? 57).

Definition digit_value (c : ascii) : Z := Z.of_nat (nat_of_ascii c) - 48.

Fixpoint decimal_acc (acc : Z) (s : string) : option Z :=
  match s with
  | EmptyString => Some acc
  | String c s' =>
      if is_digit c then decimal_acc (10 * acc + digit_value c) s' else None
  end.

(** The integer written by a non-empty string of decimal digits. *)
Definition decimal (s : string) : option Z :=
  match s with
  | EmptyString => None
  | _ => decimal_acc 0 s
  end.

(** ** [Number(s)]: the numeric value of a string

    Strings are sequences of characters below 256.  The value is kept
    exact, as sign, digits and decimal exponent; rounding to a double is
    applied where [listen] looks at the number. *)

(** StrWhiteSpaceChar: white space and line terminators. *)
Definition is_space (c : ascii) : bool :=
  let n := nat_of_ascii c in
  ((9 <=? n) && (n <=? 13) || (n =? 32) || (n =? 160))%nat.

Fixpoint drop_space (l : list ascii) : list ascii :=
  match l with
  | c :: l' => if is_space c then drop_space l' else l
  | [] => []
  end.

(** [String.prototype.trim], also the StrWhiteSpace around a numeric
    literal. *)
Definition trim (l : list ascii) : list ascii :=
  rev (drop_space (rev (drop_space l))).

(** The longest prefix of decimal digits, and what follows it. *)
Fixpoint span_digits (l : list ascii) : list ascii * list ascii :=
  match l with
  | c :: l' =>
      if is_digit c
      then let '(ds, rest) := span_digits l' in (c :: ds, rest)
      else ([], l)
  | [] => ([], [])
  end.

Definition digits_value (ds : list ascii) : Z :=
  fold_left (fun acc c => 10 * acc + digit_value c) ds 0.

Definition radix_digit (c : ascii) : option Z :=
  let n := Z.of_nat (nat_of_ascii c) in
  if (48 <=? n) && (n <=? 57) then Some (n - 48)
  else if (97 <=? n) && (n <=? 102) then Some (n - 87)
  else if (65 <=? n) && (n <=? 70) then Some (n - 55)
  else None.

Fixpoint radix_acc (radix acc : Z) (l : list ascii) : option Z :=
  match l with
  | [] => Some acc
  | c :: l' =>
      match radix_digit c with
      | Some d => if d <? radix then radix_acc radix (radix * acc + d) l' else None
      | None => None
      end
  end.

(** The digits of a NonDecimalIntegerLiteral: at least one. *)
Definition radix_literal (radix : Z) (l : list ascii) : option Z :=
  match l with
  | [] => None
  | _ => radix_acc radix 0 l
  end.

(** [0x], [0o], [0b] in either case: the radix and the digits. *)
Definition radix_prefix (l : list ascii) : option (Z * list ascii) :=
  match l with
  | c0 :: c1 :: ds =>
      if Ascii.eqb c0 "0" then
        if Ascii.eqb c1 "x" || Ascii.eqb c1 "X" then Some (16, ds)
        else if Ascii.eqb c1 "o" || Ascii.eqb c1 "O" then Some (8, ds)
        else if Ascii.eqb c1 "b" || Ascii.eqb c1 "B" then Some (2, ds)
        else None
      else None
  | _ => None
  end.

(** The value of a string as a number, before rounding:
    [Finite negative m e] is plus or minus [m * 10^e]. *)
Inductive Numeric : Type :=
| NaN
| Infinity (negative : bool)
| Finite (negative : bool) (m e : Z).

(** ExponentPart, or nothing; [None] when something else follows the
    mantissa. *)
Definition exponent_part (l : list ascii) : option Z :=
  match l with
  | [] => Some 0
  | c :: r =>
      if Ascii.eqb c "e" || Ascii.eqb c "E" then
        let '(negative, r') :=
          match r with
          | sign :: r'' =>
              if Ascii.eqb sign "+" then (false, r'')
              else if Ascii.eqb sign "-" then (true, r'')
              else (false, r)
          | [] => (false, r)
          end in
        match span_digits r' with
        | ((_ :: _) as ds, []) =>
            Some (if negative then - digits_value ds else digits_value ds)
        | _ => None
        end
      else None
  end.

(** StrUnsignedDecimalLiteral: [Infinity], or digits with an optional
    fraction and exponent, at least one digit before or after the point. *)
Definition unsigned_decimal (negative : bool) (l : list ascii) : Numeric :=
  if String.eqb (string_of_list_ascii l) "Infinity" then Infinity negative
  else
    let '(ip, r1) := span_digits l in
    let '(fp, r2) :=
      match r1 with
      | c :: r => if Ascii.eqb c "." then span_digits r else ([], r1)
      | [] => ([], r1)
      end in
    match (ip ++ fp)%list with
    | [] => NaN
    | ds =>
        match exponent_part r2 with
        | Some e => Finite negative (digits_value ds) (e - Z.of_nat (length fp))
        | None => NaN
        end
    end.

(** StringToNumber. *)
Definition StringToNumber (s : string) : Numeric :=
  let t := trim (list_ascii_of_string s) in
  match t with
  | [] => Finite false 0 0
  | c :: r =>
      match radix_prefix t with
      | Some (radix, ds) =>
          match radix_literal radix ds with
          | Some n => Finite false n 0
          | None => NaN
          end
      | None =>
          if Ascii.eqb c "+" then unsigned_decimal false r
          else if Ascii.eqb c "-" then unsigned_decimal true r
          else unsigned_decimal false t
      end
  end.

(** Half the distance from the integer [n] to the next double on one side
    of it is [2^-(half_ulp_exponent n below)]; for 0 that is half the
    smallest subnormal. *)
Definition half_ulp_exponent (n : Z) (below : bool) : Z :=
  if n =? 0 then 1075
  else
    let k := Z.log2 n in
    if below && (n =? 2 ^ k) then 54 - k else 53 - k.

(** The integer of 0..65535 that the double nearest to [m * 10^e] is equal
    to, if there is one (an integer in that range is a double with an even
    significand, so a tie rounds to it). *)
Definition port_number (m e : Z) : option Z :=
  let num := if 0 <=? e then m * 10 ^ e else m in
  let den := if 0 <=? e then 1 else 10 ^ (- e) in
  let n := (2 * num + den) / (2 * den) in
  if (0 <=? n) && (n <=? 65535) then
    let below := num <? n * den in
    if Z.abs (num - n * den) * 2 ^ half_ulp_exponent n below <=? den
    then Some n else None
  else None.

(** ** [server.listen(port)] *)

(** Where the server is asked to listen. *)
Inductive ListenTarget : Type :=
| TcpPort (n : Z)            (* passes validatePort: an integer in 0..65535;
                                0 asks the system for any free port *)
| BadPort                    (* validatePort throws ERR_SOCKET_BAD_PORT *)
| Pipe (s : string).         (* [isPipeName]: the path of a pipe or socket *)

Global Instance ListenTarget_eq_dec : EqDecision ListenTarget.
Proof. solve_decision. Defined.

(** [validatePort] on a number. *)
Definition validatePort (n : Z) : ListenTarget :=
  if (0 <=? n) && (n <=? 65535) then TcpPort n else BadPort.

(** A string argument.  [isPipeName]: a string whose number is NaN or
    negative names a pipe.  Otherwise [validatePort]: the string must not be
    blank and its number must be an integer of 0..65535 (minus zero counts
    as zero). *)
Definition listen_string (s : string) : ListenTarget :=
  match StringToNumber s with
  | NaN => Pipe s
  | Infinity negative => if negative then Pipe s else BadPort
  | Finite negative m e =>
      match port_number m e with
      | Some n =>
          if negative && negb (n =? 0) then Pipe s
          else
            match trim (list_ascii_of_string s) with
            | [] => BadPort
            | _ => TcpPort n
            end
      | None => if negative then Pipe s else BadPort
      end
  end.

Definition listen_target (v : value) : ListenTarget :=
  match v with
  | VUndefined => TcpPort 0
  | VNumber n => validatePort n
  | VString s => listen_string s
  end.

(** The two ways [listen] fails; neither is caught by the program, so
    either ends the process. *)
Inductive Error : Type :=
| ERR_SOCKET_BAD_PORT        (* thrown by [listen] itself *)
| ListenError.               (* the server's 'error' event: EADDRINUSE, EACCES, ... *)

End Node.

(** * Express 4: routing, [res.send] and the final handler *)
Module Express.
Import JS.

(** The request methods Node's HTTP parser accepts ([http.METHODS]). *)
Inductive Method : Type :=
| ACL | BIND | CHECKOUT | CONNECT | COPY | DELETE | GET | HEAD | LINK | LOCK
| M_SEARCH | MERGE | MKACTIVITY | MKCALENDAR | MKCOL | MOVE | NOTIFY | OPTIONS
| PATCH | POST | PROPFIND | PROPPATCH | PURGE | PUT | REBIND | REPORT | SEARCH
| SOURCE | SUBSCRIBE | TRACE | UNBIND | UNLINK | UNLOCK | UNSUBSCRIBE.

Global Instance Method_eq_dec : EqDecision Method.
Proof. solve_decision. Defined.

Definition method_name (m : Method) : string :=
  match m with
  | ACL => "ACL" | BIND => "BIND" | CHECKOUT => "CHECKOUT" | CONNECT => "CONNECT"
  | COPY => "COPY" | DELETE => "DELETE" | GET => "GET" | HEAD => "HEAD"
  | LINK => "LINK" | LOCK => "LOCK" | M_SEARCH => "M-SEARCH" | MERGE => "MERGE"
  | MKACTIVITY => "MKACTIVITY" | MKCALENDAR => "MKCALENDAR" | MKCOL => "MKCOL"
  | MOVE => "MOVE" | NOTIFY => "NOTIFY" | OPTIONS => "OPTIONS" | PATCH => "PATCH"
  | POST => "POST" | PROPFIND => "PROPFIND" | PROPPATCH => "PROPPATCH"
  | PURGE => "PURGE" | PUT => "PUT" | REBIND => "REBIND" | REPORT => "REPORT"
  | SEARCH => "SEARCH" | SOURCE => "SOURCE" | SUBSCRIBE => "SUBSCRIBE"
  | TRACE => "TRACE" | UNBIND => "UNBIND" | UNLINK => "UNLINK" | UNLOCK => "UNLOCK"
  | UNSUBSCRIBE => "UNSUBSCRIBE"
  end.

(** An incoming request as the application sees it: [path] is the
    pathname of the request URL (it begins with a slash), [query] what
    follows the question mark, [headers] Node's [req.headers] object
    (lower-case names). *)
Record Request : Type := mkRequest {
  method : Method;
  path : string;
  query : string;
  headers : gmap string string;
  body : string
}.

(** The response object while a handler works on it.  Of its headers only
    the validator [ETag] is kept, the one [res.send] consults; nothing in
    the application sets [Last-Modified]. *)
Record Res : Type := mkRes {
  statusCode : Z;
  etag : option string;
  ended : option string     (* the chunk passed to [end], once called *)
}.

(** A fresh [http.ServerResponse]: status 200, nothing sent. *)
Definition new_res : Res := mkRes 200 None None.

Inductive Body : Type :=
| Text (s : string)          (* the chunk written by [res.send] *)
| ErrorDocument.             (* the HTML page of the final handler *)

Record Response : Type := mkResponse {
  status : Z;
  payload : Body
}.

Global Instance Body_eq_dec : EqDecision Body.
Proof. solve_decision. Defined.
Global Instance Response_eq_dec : EqDecision Response.
Proof. solve_decision. Defined.

(** ** Cache freshness (package [fresh], used by [req.fresh]) *)

(** [parseTokenList]: splits on commas; spaces (0x20) before and after a
    token are dropped.  The loop keeps the source's [start] and [end]
    indices into [str]. *)
Fixpoint parseTokenList_loop (str : string) (rest : list ascii)
    (i start end_ : nat) (acc : list string) : list string :=
  match rest with
  | [] => acc ++ [substring start (end_ - start) str]
  | c :: rest' =>
      if Ascii.eqb c " " then
        if Nat.eqb start end_
        then parseTokenList_loop str rest' (S i) (S i) (S i) acc
        else parseTokenList_loop str rest' (S i) start end_ acc
      else if Ascii.eqb c "," then
        parseTokenList_loop str rest' (S i) (S i) (S i)
          (acc ++ [substring start (end_ - start) str])
      else parseTokenList_loop str rest' (S i) start (S i) acc
  end.

Definition parseTokenList (str : string) : list string :=
  parseTokenList_loop str (list_ascii_of_string str) 0 0 0 [].

(** The characters the regular expression class [\s] matches in a header
    value (a Latin-1 string). *)
Definition is_js_space (c : ascii) : bool :=
  let n := nat_of_ascii c in
  ((9 <=? n) && (n <=? 13) || (n =? 32) || (n =? 160))%nat.

Fixpoint split_on (sep : ascii) (l : list ascii) : list (list ascii) :=
  match l with
  | [] => [[]]
  | c :: l' =>
      if Ascii.eqb c sep then [] :: split_on sep l'
      else match split_on sep l' with
           | piece :: pieces => (c :: piece) :: pieces
           | [] => [[c]]
           end
  end.

Fixpoint drop_spaces (l : list ascii) : list ascii :=
  match l with
  | c :: l' => if is_js_space c then drop_spaces l' else l
  | [] => []
  end.

Definition trim_spaces (l : list ascii) : list ascii :=
  rev (drop_spaces (rev (drop_spaces l))).

(** [CACHE_CONTROL_NO_CACHE_REGEXP.test(s)] for
    [/(?:^|,)\s*?no-cache\s*?(?:,|$)/]: some comma-separated directive is
    [no-cache] up to surrounding white space. *)
Definition no_cache (s : string) : bool :=
  existsb (fun piece => String.eqb (string_of_list_ascii (trim_spaces piece)) "no-cache")
          (split_on "," (list_ascii_of_string s)).

(** One step of the loop over the [If-None-Match] tokens. *)
Definition etag_matches (etag match_ : string) : bool :=
  String.eqb match_ etag || String.eqb match_ ("W/" ++ etag)
  || String.eqb ("W/" ++ match_) etag.

(** [fresh(reqHeaders, resHeaders)], with [resHeaders.etag = etag] and
    [resHeaders['last-modified']] undefined. *)
Definition fresh (reqHeaders : gmap string string) (etag : option string) : bool :=
  let modifiedSince := reqHeaders !! "if-modified-since" in
  let noneMatch := reqHeaders !! "if-none-match" in
  if negb (truthy_str modifiedSince) && negb (truthy_str noneMatch) then false
  else if match reqHeaders !! "cache-control" with
          | Some cacheControl => truthy_str (Some cacheControl) && no_cache cacheControl
          | None => false
          end then false
  else if match noneMatch with
          | Some nm =>
              truthy_str noneMatch && negb (String.eqb nm "*") &&
              match etag with
              | Some e =>
                  negb (truthy_str etag) ||
                  negb (existsb (etag_matches e) (parseTokenList nm))
              | None => true
              end
          | None => false
          end then false
  else if truthy_str modifiedSince then false
  else true.

(** The getter [req.fresh]: only GET and HEAD, only on a 2xx or 304
    status. *)
Definition req_fresh (req : Request) (res : Res) : bool :=
  match method req with
  | GET | HEAD =>
      let st := statusCode res in
      if ((200 <=? st) && (st <? 300)) || (st =? 304)
      then fresh (headers req) (etag res)
      else false
  | _ => false
  end.

(** ** Routes *)

(** A route made by [app.METHOD(path, callback)]: one path, one method,
    one callback. *)
Record Route : Type := mkRoute {
  route_path : string;
  route_method : Method;
  route_callback : Request -> Res -> Res
}.

(** [Route.prototype._handles_method]: HEAD falls back to the GET
    callback of a route that has no HEAD callback. *)
Definition handles_method (r : Route) (m : Method) : bool :=
  let name :=
    if decide (m = HEAD) then
      (if decide (route_method r = HEAD) then HEAD else GET)
    else m in
  bool_decide (route_method r = name).

(** [Route.prototype._options]: the methods advertised for the route. *)
Definition route_options (r : Route) : list Method :=
  if decide (route_method r = GET) then [GET; HEAD] else [route_method r].

Fixpoint appendMethods (l addition : list Method) : list Method :=
  match addition with
  | [] => l
  | m :: addition' =>
      appendMethods (if bool_decide (m ∈ l) then l else l ++ [m]) addition'
  end.

(** Matching of a route's path against the request pathname.  The
    program's only pattern is ["/"]; the optional trailing slash and the
    case-insensitivity of non-strict routing add nothing to it on
    pathnames, so literal patterns are compared as they are. *)
Definition match_path (r : Route) (pathname : string) : bool :=
  String.eqb pathname (route_path r).

(** The package [finalhandler], reached when no layer answers: 404 with
    its HTML page (no body in answer to HEAD). *)
Definition final_handler (req : Request) : Response :=
  mkResponse 404 (if decide (method req = HEAD) then Text "" else ErrorDocument).

Definition finish (res : Res) : option Response :=
  match ended res with
  | Some chunk => Some (mkResponse (statusCode res) (Text chunk))
  | None => None         (* the callback returned without answering *)
  end.

(** The routes that would run their callback for the request. *)
Definition matching (stack : list Route) (req : Request) : list Route :=
  filter (fun r => match_path r (path req) && handles_method r (method req) = true) stack.

(** ** Answering *)

Section WithSettings.

(** The application setting ['etag fn']: by default the weak ETag
    generator of package [etag], a digest of the body. *)
Variable etag_fn : string -> string.

(** The "populate ETag" step of [res.send]: an [ETag] is generated
    unless the response carries one already. *)
Definition generate_etag (chunk : string) (res : Res) : Res :=
  if negb (truthy_str (etag res)) && truthy_str (Some (etag_fn chunk))
  then mkRes (statusCode res) (Some (etag_fn chunk)) (ended res)
  else res.

(** [res.send(chunk)] for a string chunk: sets the [ETag], turns a fresh
    conditional request into 304, empties the body on 204, 304 and 205,
    writes no body in answer to HEAD. *)
Definition send (chunk : string) (req : Request) (res : Res) : Res :=
  let res1 := generate_etag chunk res in
  let res2 :=
    if req_fresh req res1 then mkRes 304 (etag res1) (ended res1) else res1 in
  let chunk1 :=
    if (statusCode res2 =? 204) || (statusCode res2 =? 304) then "" else chunk in
  let chunk2 := if statusCode res2 =? 205 then "" else chunk1 in
  mkRes (statusCode res2) (etag res2)
        (Some (if decide (method req = HEAD) then "" else chunk2)).

(** [sendOptionsResponse]: the automatic answer to OPTIONS. *)
Definition sendOptionsResponse (req : Request) (options : list Method) : option Response :=
  finish (send (String.concat "," (map method_name options)) req new_res).

(** [Router.prototype.handle]: the walk down the stack of routes.  The
    built-in [query] and [expressInit] layers in front of the routes pass
    every request on and are left out. *)
Fixpoint router_handle (stack : list Route) (req : Request)
    (options : list Method) : option Response :=
  match stack with
  | [] =>
      if decide (method req = OPTIONS) then
        match options with
        | [] => Some (final_handler req)
        | _ => sendOptionsResponse req options
        end
      else Some (final_handler req)
  | r :: stack' =>
      if match_path r (path req) then
        if handles_method r (method req)
        then finish (route_callback r req new_res)
        else router_handle stack' req
               (if decide (method req = OPTIONS)
                then appendMethods options (route_options r) else options)
      else router_handle stack' req options
  end.

(** [app.handle(req, res)]. *)
Definition handle (stack : list Route) (req : Request) : option Response :=
  router_handle stack req [].

End WithSettings.

End Express.

(** * Node's HTTP server, in front of the application *)
Module Http.
Import JS Express.

(** [req.httpVersionMajor] and [req.httpVersionMinor]. *)
Record Version : Type := mkVersion {
  major : nat;
  minor : nat
}.

Global Instance Version_eq_dec : EqDecision Version.
Proof. solve_decision. Defined.

Definition http_1_1 : Version := mkVersion 1 1.
Definition http_1_0 : Version := mkVersion 1 0.

(** The class [\w] of regular expressions. *)
Definition is_word (c : ascii) : bool :=
  let n := nat_of_ascii c in
  ((48 <=? n) && (n <=? 57) || (65 <=? n) && (n <=? 90)
   || (97 <=? n) && (n <=? 122) || (n =? 95))%nat.

Definition lower (c : ascii) : ascii :=
  let n := nat_of_ascii c in
  if ((65 <=? n) && (n <=? 90))%nat then ascii_of_nat (n + 32) else c.

(** What follows [pattern] at the head of [l], letters compared without
    case; [pattern] is in lower case. *)
Fixpoint after_prefix (pattern l : list ascii) : option (list ascii) :=
  match pattern, l with
  | [], _ => Some l
  | p :: pattern', c :: l' =>
      if Ascii.eqb (lower c) p then after_prefix pattern' l' else None
  | _ :: _, [] => None
  end.

(** A match of [100-continue(?:$|\W)] at the head of [l]. *)
Definition continue_here (l : list ascii) : bool :=
  match after_prefix (list_ascii_of_string "100-continue") l with
  | Some [] => true
  | Some (c :: _) => negb (is_word c)
  | None => false
  end.

(** A match somewhere in [l]; [boundary] tells whether the head of [l] is
    the start of the string or follows a character outside [\w]. *)
Fixpoint continue_from (boundary : bool) (l : list ascii) : bool :=
  (boundary && continue_here l) ||
  match l with
  | c :: l' => continue_from (negb (is_word c)) l'
  | [] => false
  end.

(** [continueExpression.test(s)] for
    [/(?:^|\W)100-continue(?:$|\W)/i]. *)
Definition continueExpression (s : string) : bool :=
  continue_from true (list_ascii_of_string s).

(** What the server does with a parsed request before any listener of
    ['request'] sees it. *)
Inductive Disposition : Type :=
| Dropped                    (* the socket is destroyed, nothing is sent *)
| Answered (r : Response)    (* answered by the server itself *)
| Handed.                    (* ['request'] is emitted: the application runs *)

(** The server made by [http.createServer(app)] in [app.listen], as Node 20
    (the release the project's [@types/node] names) runs it; it has
    listeners for ['request'] only.  CONNECT finds no ['connect'] listener.
    An HTTP/1.1 request must carry a [Host] header ([requireHostHeader] is
    on by default), and an [Expect] header other than [100-continue] finds
    no ['checkExpectation'] listener; with [100-continue] the server sends
    the interim 100 and goes on. *)
Definition on_incoming (v : Version) (req : Request) : Disposition :=
  if decide (method req = CONNECT) then Dropped
  else if decide (v = http_1_1) then
    match headers req !! "host" with
    | None => Answered (mkResponse 400 (Text ""))
    | Some _ =>
        match headers req !! "expect" with
        | None => Handed
        | Some e =>
            if continueExpression e then Handed
            else Answered (mkResponse 417 (Text ""))
        end
    end
  else Handed.

(** The requests the application gets to see, said without the server:
    not CONNECT, and under HTTP/1.1 with a [Host] header and with no
    [Expect] header but [100-continue]. *)
Definition reaches_application (v : Version) (req : Request) : Prop :=
  method req <> CONNECT /\
  (v = http_1_1 ->
   is_Some (headers req !! "host") /\
   forall e, headers req !! "expect" = Some e -> continueExpression e = true).

End Http.

(** * The program: [src/app.ts] *)
Module App.
Import JS Node Express Http.

(** What the process finds when it starts. *)
Record World : Type := mkWorld {
  initial_env : gmap string string;          (* the environment it is given *)
  env_file : option (gmap string string);    (* [.env] as parsed, if readable *)
  os_grants : ListenTarget -> bool           (* whether a bind there succeeds *)
}.

(** The effects of the five statements, in the order they happen. *)
Inductive Event : Type :=
| ConfigLoaded                               (* [dotenv.config()] returned *)
| AppCreated                                 (* [express()] *)
| EnvRead (k : string)                       (* [process.env.k] evaluated *)
| RouteAdded (m : Method) (p : string)       (* [app.get(p, ...)] *)
| ListenCalled (v : value)                   (* [app.listen(v, ...)] *)
| Bound (t : ListenTarget)                   (* the server's 'listening' event *)
| Printed (line : string).                   (* [console.log(line)] *)

Global Instance Event_eq_dec : EqDecision Event.
Proof. solve_decision. Defined.

(** The state of the process. *)
Record Proc : Type := mkProc {
  env : gmap string string;                  (* [process.env] *)
  stack : list Route;                        (* the routes of [app] *)
  listening : option ListenTarget;           (* where the server is bound *)
  stdout : list string;                      (* lines written so far *)
  events : list Event
}.

Inductive Completion (A : Type) : Type :=
| Normal (a : A)
| Uncaught (e : Error).                      (* ends the process *)
Arguments Normal {A} a.
Arguments Uncaught {A} e.

(** Statements read the world, change the process and complete normally or
    with an uncaught error. *)
Definition M (A : Type) : Type := World -> Proc -> Completion A * Proc.

Global Instance M_ret : MRet M := fun A a _ p => (Normal a, p).
Global Instance M_bind : MBind M := fun A B f m w p =>
  match m w p with
  | (Normal a, p') => f a w p'
  | (Uncaught e, p') => (Uncaught e, p')
  end.

Definition emit (e : Event) (p : Proc) : Proc :=
  mkProc (env p) (stack p) (listening p) (stdout p) (events p ++ [e]).

(** [dotenv.config()] *)
Definition dotenv_config : M unit := fun w p =>
  (Normal tt,
   emit ConfigLoaded
     (mkProc (Dotenv.config (env_file w) (env p))
             (stack p) (listening p) (stdout p) (events p))).

(** [express()]: an application with no route yet. *)
Definition express : M unit := fun _ p =>
  (Normal tt, emit AppCreated (mkProc (env p) [] (listening p) (stdout p) (events p))).

(** [process.env.PORT || 3300] over a given [process.env]. *)
Definition port (processEnv : gmap string string) : value :=
  JS.or (member processEnv "PORT") (VNumber 3300).

(** The initialiser of [const port]. *)
Definition eval_port : M value := fun _ p =>
  (Normal (port (env p)), emit (EnvRead "PORT") p).

(** [app.get(path, callback)] *)
Definition app_get (pth : string) (callback : Request -> Res -> Res) : M unit := fun _ p =>
  (Normal tt,
   emit (RouteAdded GET pth)
     (mkProc (env p) (stack p ++ [mkRoute pth GET callback])
             (listening p) (stdout p) (events p))).

(** [console.log(line)] *)
Definition console_log (line : string) : M unit := fun _ p =>
  (Normal tt,
   emit (Printed line)
     (mkProc (env p) (stack p) (listening p) (stdout p ++ [line]) (events p))).

(** [app.listen(v, callback)]: an invalid port is thrown back at once, a
    refused bind surfaces as an unhandled 'error' event; [callback] is the
    listener of 'listening' and runs only once the socket is bound. *)
Definition app_listen (v : value) (callback : M unit) : M unit := fun w p =>
  let p1 := emit (ListenCalled v) p in
  match listen_target v with
  | BadPort => (Uncaught ERR_SOCKET_BAD_PORT, p1)
  | t =>
      if os_grants w t
      then callback w
             (emit (Bound t)
                (mkProc (env p1) (stack p1) (Some t) (stdout p1) (events p1)))
      else (Uncaught ListenError, p1)
  end.

Section Program.

Variable etag_fn : string -> string.

(** [(req, res) => { res.send("Hello World! 3") }] *)
Definition greet : Request -> Res -> Res :=
  fun req res => send etag_fn "Hello World! 3" req res.

(** The module body, top to bottom. *)
Definition main : M unit :=
  dotenv_config ;;
  express ;;
  port ← eval_port ;
  app_get "/" greet ;;
  app_listen port
    (console_log ("Server running on http://localhost:" ++ to_string port)).

Definition boot (w : World) : Proc :=
  mkProc (initial_env w) [] None [] [].

(** The process once start-up has run its course. *)
Definition run (w : World) : Completion unit * Proc := main w (boot w).

Definition started (w : World) : Proc := snd (run w).

(** Whether [res.send] finds a request fresh against the greeting: the
    conditional requests it answers with 304. *)
Definition revalidated (req : Request) : bool :=
  req_fresh req (generate_etag etag_fn "Hello World! 3" new_res).

(** One request against a process.  A process that is not listening
    answers nothing.  A listening one answers through Node's server, which
    drops the request, answers it itself or hands it to [app]; the process
    is handed on as it was found. *)
Definition receive (p : Proc) (v : Version) (req : Request) : Proc * option Response :=
  match listening p with
  | Some _ =>
      (p,
       match on_incoming v req with
       | Dropped => None
       | Answered r => Some r
       | Handed => handle etag_fn (stack p) req
       end)
  | None => (p, None)
  end.

(** An HTTP/1.1 request against a process. *)
Definition serve (p : Proc) (req : Request) : Proc * option Response :=
  receive p http_1_1 req.

(** A series of requests, one after the other. *)
Fixpoint receive_all (p : Proc) (reqs : list (Version * Request))
    : Proc * list (option Response) :=
  match reqs with
  | [] => (p, [])
  | (v, req) :: reqs' =>
      let '(p1, r) := receive p v req in
      let '(p2, rs) := receive_all p1 reqs' in
      (p2, r :: rs)
  end.

End Program.

(** [process.env] once [dotenv.config()] has run. *)
Definition configured_env (w : World) : gmap string string :=
  Dotenv.config (env_file w) (initial_env w).

(** The resolved port as the start-up line shows it: the [PORT] string as
    it is, or 3300. *)
Definition port_text (w : World) : string :=
  match configured_env w !! "PORT" with
  | Some s => if decide (s = "") then "3300" else s
  | None => "3300"
  end.


(** The effects every start-up performs before it tries to bind. *)
Definition startup_events (w : World) : list Event :=
  [ConfigLoaded; AppCreated; EnvRead "PORT"; RouteAdded GET "/";
   ListenCalled (port (configured_env w))].

(** A value that denotes a TCP port number: the runtime takes it for a
    port in 0..65535 (0 standing for any free port). *)
Definition valid_tcp_port (v : value) : Prop :=
  exists n, listen_target v = TcpPort n /\ 0 <= n <= 65535.

(** The values [app.listen] has been called with, in order. *)
Definition listen_calls (p : Proc) : list value :=
  omap (fun e => match e with ListenCalled v => Some v | _ => None end) (events p).

(** The value [app.listen] was called with, if it was called. *)
Definition listen_argument (p : Proc) : option value := head (listen_calls p).

End App.

(** * Sample worlds and requests *)
Module Samples.
Import JS Node Express Http App.

(** A stand-in for the ETag generator. *)
Definition tag_of (chunk : string) : string := "W/" ++ chunk.

Definition permissive : ListenTarget -> bool := fun _ => true.

Definition bare_world : World := mkWorld ∅ None permissive.
Definition world_port_4000 : World :=
  mkWorld {[ "PORT" := "4000" ]} (Some {[ "PORT" := "5000" ]}) permissive.
Definition world_port_empty : World :=
  mkWorld {[ "PORT" := "" ]} (Some {[ "PORT" := "5000" ]}) permissive.
Definition world_file_5000 : World :=
  mkWorld ∅ (Some {[ "PORT" := "5000" ]}) permissive.
Definition world_port_abc : World := mkWorld {[ "PORT" := "abc" ]} None permissive.
Definition world_port_99999 : World := mkWorld {[ "PORT" := "99999" ]} None permissive.

(** The headers of a request that names its host and nothing else. *)
Definition to_localhost : gmap string string := {[ "host" := "localhost:3300" ]}.

Definition plain_get : Request := mkRequest GET "/" "" to_localhost "".
Definition busy_get : Request :=
  mkRequest GET "/" "a=1" (<[ "accept" := "text/plain" ]> to_localhost) "payload".
Definition conditional_get : Request :=
  mkRequest GET "/" "" (<[ "if-none-match" := "*" ]> to_localhost) "".
Definition head_root : Request := mkRequest HEAD "/" "" to_localhost "".
Definition options_root : Request := mkRequest OPTIONS "/" "" to_localhost "".
Definition post_root : Request := mkRequest POST "/" "" to_localhost "".
Definition get_foo : Request := mkRequest GET "/foo" "" to_localhost "".

End Samples.

(** * Further worlds and requests *)
Module Scenarios.
Import JS Node Express Http App.

(** The port is taken: every bind is refused. *)
Definition refusing : ListenTarget -> bool := fun _ => false.

Definition world_port_taken : World := mkWorld ∅ None refusing.
Definition world_port_0080 : World :=
  mkWorld {[ "PORT" := "0080" ]} None Samples.permissive.
Definition world_port_1e9 : World := mkWorld {[ "PORT" := "1e9" ]} None refusing.
Definition world_no_file : World :=
  mkWorld {[ "HOME" := "/root" ]} None Samples.permissive.
Definition world_noisy : World :=
  mkWorld (<[ "HOME" := "/root" ]> {[ "PORT" := "4000" ]})
          (Some (<[ "PORT" := "5000" ]> {[ "DEBUG" := "1" ]}))
          Samples.permissive.

Definition reload_get : Request :=
  mkRequest GET "/" ""
    (<[ "cache-control" := "no-cache" ]>
       (<[ "if-none-match" := "*" ]> Samples.to_localhost)) "".
Definition dated_get : Request :=
  mkRequest GET "/" ""
    (<[ "if-modified-since" := "Tue, 03 Nov 2026 00:00:00 GMT" ]>
       (<[ "if-none-match" := "*" ]> Samples.to_localhost)) "".

(** Requests the application never sees. *)
Definition expecting_get : Request :=
  mkRequest GET "/" "" (<[ "expect" := "foo" ]> Samples.to_localhost) "".
Definition expecting_get_foo : Request :=
  mkRequest GET "/foo" "" (<[ "expect" := "foo" ]> Samples.to_localhost) "".
Definition hostless_get : Request := mkRequest GET "/" "" ∅ "".
Definition connect_root : Request := mkRequest CONNECT "/" "" Samples.to_localhost "".

(** A request that asks to go on: [Expect: 100-continue]. *)
Definition continuing_post : Request :=
  mkRequest POST "/upload" "" (<[ "expect" := "100-continue" ]> Samples.to_localhost) "data".

End Scenarios.

Import JS Node Express Http App.

(** * Concrete runs *)
Section Runs.
Import Samples.

Example run_bare_world :
  run tag_of bare_world =
    (Normal tt,
     mkProc ∅ [mkRoute "/" GET (greet tag_of)] (Some (TcpPort 3300))
       ["Server running on http://localhost:3300"]
       [ConfigLoaded; AppCreated; EnvRead "PORT"; RouteAdded GET "/";
        ListenCalled (VNumber 3300); Bound (TcpPort 3300);
        Printed "Server running on http://localhost:3300"]).
Proof. reflexivity. Qed.

Example run_port_in_use :
  run tag_of (mkWorld ∅ None (fun _ => false)) =
    (Uncaught ListenError,
     mkProc ∅ [mkRoute "/" GET (greet tag_of)] None []
       [ConfigLoaded; AppCreated; EnvRead "PORT"; RouteAdded GET "/";
        ListenCalled (VNumber 3300)]).
Proof. reflexivity. Qed.

Example run_env_wins_over_file :
  listening (started tag_of world_port_4000) = Some (TcpPort 4000) /\
  stdout (started tag_of world_port_4000) = ["Server running on http://localhost:4000"].
Proof. split; reflexivity. Qed.

Example answers :
  map (fun req => snd (serve tag_of (started tag_of bare_world) req))
      [plain_get; busy_get; conditional_get; head_root; options_root;
       post_root; get_foo]
  = [Some (mkResponse 200 (Text "Hello World! 3"));
     Some (mkResponse 200 (Text "Hello World! 3"));
     Some (mkResponse 304 (Text ""));
     Some (mkResponse 200 (Text ""));
     Some (mkResponse 200 (Text "GET,HEAD"));
     Some (mkResponse 404 ErrorDocument);
     Some (mkResponse 404 ErrorDocument)].
Proof. reflexivity. Qed.

Example answers_of_the_server :
  map (fun req => snd (serve tag_of (started tag_of bare_world) req))
      [Scenarios.expecting_get; Scenarios.expecting_get_foo;
       Scenarios.hostless_get; Scenarios.connect_root;
       Scenarios.continuing_post]
  = [Some (mkResponse 417 (Text ""));
     Some (mkResponse 417 (Text ""));
     Some (mkResponse 400 (Text ""));
     None;
     Some (mkResponse 404 ErrorDocument)] /\
  map (fun req => snd (receive tag_of (started tag_of bare_world) http_1_0 req))
      [Scenarios.expecting_get; Scenarios.hostless_get; Scenarios.connect_root]
  = [Some (mkResponse 200 (Text "Hello World! 3"));
     Some (mkResponse 200 (Text "Hello World! 3"));
     None].
Proof. split; reflexivity. Qed.

Example listen_targets :
  map (fun s => listen_target (VString s))
      ["4000"; "0080"; "4e3"; " 4000 "; "0x1F90"; "4000.0"; "0"; "-0";
       "65535"; "65536"; "1e9"; "4000.5"; "Infinity"; " ";
       "abc"; "-1"; "4 000"]
  = [TcpPort 4000; TcpPort 80; TcpPort 4000; TcpPort 4000; TcpPort 8080;
     TcpPort 4000; TcpPort 0; TcpPort 0;
     TcpPort 65535; BadPort; BadPort; BadPort; BadPort; BadPort;
     Pipe "abc"; Pipe "-1"; Pipe "4 000"].
Proof. reflexivity. Qed.

Example numbers_round_as_doubles :
  map (fun s => listen_target (VString s))
      ["4000.0000000000000000001"; "4000.000000000001";
       "0.99999999999999999"; "0.9999999999999999";
       "65535.000000000003"; "65535.000000000004"; "1e-400"]
  = [TcpPort 4000; BadPort; TcpPort 1; BadPort; TcpPort 65535; BadPort; TcpPort 0].
Proof. reflexivity. Qed.

Example expect_headers :
  map continueExpression
      ["100-continue"; "100-Continue"; "foo, 100-continue"; "foo"; "";
       "100-continues"; "x100-continue"]
  = [true; true; true; false; false; false; false].
Proof. reflexivity. Qed.

Example fresh_needs_a_validator :
  fresh ∅ (Some "W/x") = false /\
  fresh {[ "if-none-match" := "*" ]} (Some "W/x") = true /\
  fresh {[ "if-none-match" := "a,  x " ]} (Some "W/x") = true /\
  fresh {[ "if-none-match" := "a, b" ]} (Some "W/x") = false /\
  fresh (<[ "cache-control" := "max-age=0, no-cache" ]> {[ "if-none-match" := "*" ]})
        (Some "W/x") = false /\
  fresh {[ "if-modified-since" := "Tue, 03 Nov 2026 00:00:00 GMT" ]} (Some "W/x") = false.
Proof. repeat split; reflexivity. Qed.

Example tokens : parseTokenList " a b ,c,, d  " = ["a b"; "c"; ""; "d"].
Proof. reflexivity. Qed.

End Runs.

(** * Start-up in closed form *)
Section Startup.

Variable etag_fn : string -> string.

Lemma run_eq (w : World) :
  run etag_fn w =
    let v := port (configured_env w) in
    let line := "Server running on http://localhost:" ++ to_string v in
    let routes := [mkRoute "/" GET (greet etag_fn)] in
    match listen_target v with
    | BadPort =>
        (Uncaught ERR_SOCKET_BAD_PORT,
         mkProc (configured_env w) routes None [] (startup_events w))
    | t =>
        if os_grants w t
        then (Normal tt,
              mkProc (configured_env w) routes (Some t) [line]
                     (startup_events w ++ [Bound t; Printed line]))
        else (Uncaught ListenError,
              mkProc (configured_env w) routes None [] (startup_events w))
    end.
Proof.
  cbv [run main boot mbind M_bind dotenv_config express eval_port app_get
       app_listen console_log emit env stack listening stdout events
       startup_events configured_env app].
  destruct (listen_target _); reflexivity.
Qed.

End Startup.

(** * Facts about the pieces *)
Section Pieces.

Variable etag_fn : string -> string.

Lemma port_unset (processEnv : gmap string string) :
  processEnv !! "PORT" = None -> port processEnv = VNumber 3300.
Proof. intros H. unfold port, member. rewrite H. reflexivity. Qed.

Lemma port_set (processEnv : gmap string string) (s : string) :
  processEnv !! "PORT" = Some s ->
  port processEnv = if decide (s = "") then VNumber 3300 else VString s.
Proof.
  intros H. unfold port, member, JS.or. rewrite H. cbn [truthy].
  destruct (String.eqb_spec s ""); case_decide; try congruence; reflexivity.
Qed.

Lemma configured_env_kept (w : World) (k s : string) :
  initial_env w !! k = Some s -> configured_env w !! k = Some s.
Proof.
  intros H. unfold configured_env, Dotenv.config, Dotenv.populate.
  destruct (env_file w); [|exact H].
  apply lookup_union_Some_l. exact H.
Qed.

Lemma configured_env_filled (w : World) (file : gmap string string) (k : string) :
  env_file w = Some file -> initial_env w !! k = None ->
  configured_env w !! k = file !! k.
Proof.
  intros Hf H. unfold configured_env, Dotenv.config, Dotenv.populate.
  rewrite Hf. apply lookup_union_r. exact H.
Qed.

Lemma configured_env_unset (w : World) (k : string) :
  configured_env w !! k = None <->
  initial_env w !! k = None /\
  (forall file, env_file w = Some file -> file !! k = None).
Proof.
  unfold configured_env, Dotenv.config, Dotenv.populate.
  destruct (env_file w) as [file|].
  - rewrite lookup_union_None. split.
    + intros [Hi Hf]. split; [exact Hi|]. intros ? [= <-]. exact Hf.
    + intros [Hi Hf]. split; [exact Hi|]. apply Hf. reflexivity.
  - split.
    + intros Hi. split; [exact Hi|]. intros ? [=].
    + intros [Hi _]. exact Hi.
Qed.

Lemma decimal_acc_nonneg (s : string) :
  forall acc n, 0 <= acc -> decimal_acc acc s = Some n -> 0 <= n.
Proof.
  induction s as [|c s IH]; intros acc n Hacc H; cbn in H.
  - congruence.
  - destruct (is_digit c) eqn:Hd; [|discriminate].
    eapply IH; [|exact H].
    unfold is_digit in Hd. unfold digit_value. lia.
Qed.

Lemma decimal_nonneg (s : string) (n : Z) : decimal s = Some n -> 0 <= n.
Proof.
  destruct s; [discriminate|]. unfold decimal.
  apply decimal_acc_nonneg. lia.
Qed.

(** *** Strings of digits under [Number()] *)

Definition digit (c : ascii) : Prop := is_digit c = true.

Lemma digit_not_special (c : ascii) :
  is_digit c = true ->
  is_space c = false /\
  Ascii.eqb c "+" = false /\ Ascii.eqb c "-" = false /\ Ascii.eqb c "." = false /\
  Ascii.eqb c "I" = false /\
  Ascii.eqb c "x" || Ascii.eqb c "X" = false /\
  Ascii.eqb c "o" || Ascii.eqb c "O" = false /\
  Ascii.eqb c "b" || Ascii.eqb c "B" = false.
Proof.
  destruct c as [[] [] [] [] [] [] [] []]; intros H;
    first [discriminate H | repeat split; reflexivity].
Qed.

Lemma decimal_acc_digits (s : string) :
  forall acc n, decimal_acc acc s = Some n ->
    Forall digit (list_ascii_of_string s) /\
    n = fold_left (fun a c => 10 * a + digit_value c) (list_ascii_of_string s) acc.
Proof.
  induction s as [|c s IH]; intros acc n H; cbn in H |- *.
  - split; [constructor|congruence].
  - destruct (is_digit c) eqn:Hd; [|discriminate].
    destruct (IH _ _ H) as [Hf Hn]. split; [constructor; assumption|exact Hn].
Qed.

Lemma decimal_digits (s : string) (n : Z) :
  decimal s = Some n ->
  list_ascii_of_string s <> [] /\
  Forall digit (list_ascii_of_string s) /\
  n = digits_value (list_ascii_of_string s).
Proof.
  destruct s as [|c s]; [discriminate|]. unfold decimal. intros H.
  split; [discriminate|]. apply decimal_acc_digits in H. exact H.
Qed.

Lemma drop_space_digits (l : list ascii) :
  Forall digit l -> drop_space l = l.
Proof.
  intros [|c l' Hc _]; [reflexivity|]. cbn.
  destruct (digit_not_special c Hc) as [-> _]. reflexivity.
Qed.

Lemma trim_digits (l : list ascii) : Forall digit l -> trim l = l.
Proof.
  intros H. unfold trim. rewrite (drop_space_digits l H).
  rewrite drop_space_digits by (apply Forall_rev; exact H).
  apply rev_involutive.
Qed.

Lemma span_digits_all (l : list ascii) : Forall digit l -> span_digits l = (l, []).
Proof.
  induction 1 as [|c l Hc _ IH]; [reflexivity|].
  cbn. rewrite Hc, IH. reflexivity.
Qed.

Lemma radix_prefix_digits (l : list ascii) : Forall digit l -> radix_prefix l = None.
Proof.
  intros H. destruct l as [|c0 [|c1 ds]]; try reflexivity.
  apply Forall_cons in H as [_ H]. apply Forall_cons in H as [H1 _].
  destruct (digit_not_special c1 H1) as (_ & _ & _ & _ & _ & Hx & Ho & Hb).
  unfold radix_prefix. rewrite Hx, Ho, Hb. destruct (Ascii.eqb c0 "0"); reflexivity.
Qed.

Lemma unsigned_decimal_digits (l : list ascii) :
  l <> [] -> Forall digit l ->
  unsigned_decimal false l = Finite false (digits_value l) 0.
Proof.
  intros Hne H. unfold unsigned_decimal.
  destruct l as [|c l']; [contradiction|].
  assert (Hc : digit c) by (apply Forall_cons in H as [Hc _]; exact Hc).
  destruct (digit_not_special c Hc) as (_ & _ & _ & _ & HI & _).
  cbn [string_of_list_ascii String.eqb]. rewrite HI.
  rewrite (span_digits_all _ H). rewrite app_nil_r. reflexivity.
Qed.

(** A string of digits is its own decimal numeral for [Number()]. *)
Lemma StringToNumber_digits (s : string) (n : Z) :
  decimal s = Some n -> StringToNumber s = Finite false n 0.
Proof.
  intros H. destruct (decimal_digits s n H) as (Hne & Hd & ->).
  unfold StringToNumber. rewrite (trim_digits _ Hd).
  destruct (list_ascii_of_string s) as [|c r] eqn:Hl; [contradiction|].
  rewrite (radix_prefix_digits _ Hd).
  assert (Hc : digit c) by (apply Forall_cons in Hd as [Hc _]; exact Hc).
  destruct (digit_not_special c Hc) as (_ & -> & -> & _).
  apply unsigned_decimal_digits; [discriminate|exact Hd].
Qed.

Lemma port_number_integer (n : Z) :
  0 <= n -> port_number n 0 = if decide (n <= 65535) then Some n else None.
Proof.
  intros Hn. unfold port_number.
  change (0 <=? 0) with true. cbv iota zeta. change (10 ^ 0) with 1.
  assert (E : (2 * (n * 1) + 1) / (2 * 1) = n)
    by (symmetry; apply (Z.div_unique _ _ _ 1); lia).
  rewrite E. replace (0 <=? n) with true by lia. cbn [andb].
  case_decide as H.
  - replace (n <=? 65535) with true by lia.
    replace (n * 1 - n * 1) with 0 by lia. cbn [Z.abs Z.mul].
    reflexivity.
  - replace (n <=? 65535) with false by lia. reflexivity.
Qed.

Lemma port_number_range (m e n : Z) : port_number m e = Some n -> 0 <= n <= 65535.
Proof.
  unfold port_number. cbv zeta. intros H.
  match type of H with
  | context [(0 <=? ?k) && (?k <=? 65535)] =>
      destruct ((0 <=? k) && (k <=? 65535)) eqn:Hr; [|discriminate]
  end.
  match type of H with
  | (if ?c then _ else _) = _ => destruct c; [|discriminate]
  end.
  injection H as E. rewrite <- E.
  apply andb_true_iff in Hr as [H0 H1]. lia.
Qed.

Lemma listen_target_range (v : value) (n : Z) :
  listen_target v = TcpPort n -> 0 <= n <= 65535.
Proof.
  destruct v as [|s|k]; cbn [listen_target].
  - intros [= <-]. lia.
  - unfold listen_string.
    destruct (StringToNumber s) as [|neg|neg m e]; [discriminate|destruct neg; discriminate|].
    destruct (port_number m e) as [k|] eqn:Hk; [|destruct neg; discriminate].
    destruct (neg && negb (k =? 0)); [discriminate|].
    destruct (trim _); [discriminate|]. intros [= E]. rewrite <- E.
    exact (port_number_range _ _ _ Hk).
  - unfold validatePort. destruct ((0 <=? k) && (k <=? 65535)) eqn:Hr; [|discriminate].
    intros [= E]. rewrite <- E. apply andb_true_iff in Hr as [H0 H1]. lia.
Qed.

Lemma listen_target_decimal (s : string) (n : Z) :
  decimal s = Some n ->
  listen_target (VString s) = if decide (n <= 65535) then TcpPort n else BadPort.
Proof.
  intros H. pose proof (decimal_nonneg _ _ H) as Hn.
  destruct (decimal_digits s n H) as (Hne & Hd & _).
  cbn [listen_target]. unfold listen_string.
  rewrite (StringToNumber_digits _ _ H), (port_number_integer n Hn).
  case_decide; [|reflexivity].
  cbn [andb]. rewrite (trim_digits _ Hd).
  destruct (list_ascii_of_string s); [contradiction|reflexivity].
Qed.

End Pieces.

(** * Facts about the started process and its answers *)
Section Running.

Variable etag_fn : string -> string.

Local Abbreviation started := (started etag_fn).
Local Abbreviation greeting_route := (mkRoute "/" GET (greet etag_fn)).

(** Case analysis on how start-up ended. *)
Ltac startup w :=
  unfold App.started; rewrite (run_eq etag_fn w); cbv zeta;
  let n := fresh "n" in
  let s := fresh "s" in
  destruct (listen_target (port (configured_env w))) as [n| |s] eqn:?;
  [destruct (os_grants w (TcpPort n)) eqn:?
  |
  |destruct (os_grants w (Pipe s)) eqn:?];
  cbn [fst snd env stack listening stdout events].

Lemma started_env (w : World) : env (started w) = configured_env w.
Proof. startup w; reflexivity. Qed.

Lemma started_stack (w : World) : stack (started w) = [greeting_route].
Proof. startup w; reflexivity. Qed.

Lemma started_listen_argument (w : World) :
  listen_argument (started w) = Some (port (configured_env w)).
Proof. startup w; reflexivity. Qed.

Lemma started_listen_calls (w : World) :
  listen_calls (started w) = [port (configured_env w)].
Proof. startup w; reflexivity. Qed.

Lemma started_listening (w : World) (t : ListenTarget) :
  listening (started w) = Some t <->
  listen_target (port (configured_env w)) = t /\ t <> BadPort /\ os_grants w t = true.
Proof.
  startup w; split; try (intros [<- [? ?]]); try intros [= <-];
    try congruence; auto.
Qed.

Lemma started_stdout (w : World) :
  stdout (started w) =
    match listening (started w) with
    | Some _ =>
        ["Server running on http://localhost:" ++ to_string (port (configured_env w))]
    | None => []
    end.
Proof. startup w; reflexivity. Qed.

Lemma started_events (w : World) :
  events (started w) =
    match listening (started w) with
    | Some t =>
        (startup_events w ++
         [Bound t;
          Printed ("Server running on http://localhost:"
                   ++ to_string (port (configured_env w)))])%list
    | None => startup_events w
    end.
Proof. startup w; reflexivity. Qed.

Lemma started_completion (w : World) :
  fst (run etag_fn w) =
    match listening (started w) with
    | Some _ => Normal tt
    | None =>
        Uncaught (if decide (listen_target (port (configured_env w)) = BadPort)
                  then ERR_SOCKET_BAD_PORT else ListenError)
    end.
Proof. startup w; reflexivity. Qed.

Lemma generate_etag_status (chunk : string) (res : Res) :
  statusCode (generate_etag etag_fn chunk res) = statusCode res /\
  ended (generate_etag etag_fn chunk res) = ended res.
Proof. unfold generate_etag. destruct (_ && _); auto. Qed.

(** What [res.send] makes of a new response. *)
Lemma send_answer (chunk : string) (req : Request) :
  finish (send etag_fn chunk req new_res) =
    Some (if req_fresh req (generate_etag etag_fn chunk new_res)
          then mkResponse 304 (Text "")
          else mkResponse 200
                 (Text (if decide (method req = HEAD) then "" else chunk))).
Proof.
  unfold send, finish.
  destruct (generate_etag_status chunk new_res) as [Hs _].
  destruct (req_fresh req _) eqn:Hf; cbn [statusCode ended etag].
  - case_decide; reflexivity.
  - rewrite Hs. reflexivity.
Qed.

(** The answer of [greet] to GET. *)
Lemma greet_get (req : Request) :
  method req = GET ->
  finish (greet etag_fn req new_res) =
    Some (if revalidated etag_fn req
          then mkResponse 304 (Text "")
          else mkResponse 200 (Text "Hello World! 3")).
Proof.
  intros Hm. unfold greet, revalidated. rewrite send_answer, Hm. reflexivity.
Qed.

Lemma handle_get_root (req : Request) :
  method req = GET -> path req = "/" ->
  handle etag_fn [greeting_route] req =
    Some (if revalidated etag_fn req
          then mkResponse 304 (Text "")
          else mkResponse 200 (Text "Hello World! 3")).
Proof.
  intros Hm Hp. unfold handle, router_handle, match_path, handles_method.
  cbn [route_path route_method route_callback]. rewrite Hp, Hm.
  cbn -[finish greet]. apply greet_get. exact Hm.
Qed.

(** HEAD / runs the GET callback; [res.send] leaves the body out. *)
Lemma handle_head_root (req : Request) :
  method req = HEAD -> path req = "/" ->
  matching [greeting_route] req = [greeting_route] /\
  handle etag_fn [greeting_route] req =
    Some (mkResponse (if revalidated etag_fn req then 304 else 200) (Text "")).
Proof.
  intros Hm Hp.
  unfold matching, handle, router_handle, match_path, handles_method.
  cbn [route_path route_method route_callback filter list_filter].
  rewrite Hp, Hm. split; [reflexivity|].
  cbn -[send finish greet].
  unfold greet, revalidated. rewrite send_answer, Hm.
  destruct (req_fresh req _); reflexivity.
Qed.

(** OPTIONS / is answered by the router with the allowed methods. *)
Lemma handle_options_root (req : Request) :
  method req = OPTIONS -> path req = "/" ->
  matching [greeting_route] req = [] /\
  handle etag_fn [greeting_route] req = Some (mkResponse 200 (Text "GET,HEAD")).
Proof.
  intros Hm Hp.
  unfold matching, handle, router_handle, match_path, handles_method.
  cbn [route_path route_method route_callback filter list_filter].
  rewrite Hp, Hm. split; [reflexivity|].
  cbn -[send finish sendOptionsResponse].
  unfold sendOptionsResponse. rewrite send_answer.
  unfold req_fresh. rewrite Hm. reflexivity.
Qed.

Lemma handle_unmatched (req : Request) :
  path req <> "/" \/
  (method req <> GET /\ method req <> HEAD /\ method req <> OPTIONS) ->
  matching [greeting_route] req = [] /\
  handle etag_fn [greeting_route] req = Some (final_handler req).
Proof.
  intros H. unfold matching, handle, router_handle, match_path, handles_method.
  cbn [route_path route_method route_callback filter list_filter].
  destruct (String.eqb_spec (path req) "/") as [Hp|Hp].
  - destruct H as [H|(Hg & Hh & Ho)]; [contradiction|].
    destruct (method req); try congruence; split; reflexivity.
  - split; [reflexivity|].
    destruct (decide (method req = OPTIONS)); reflexivity.
Qed.

Lemma receive_eq (p : Proc) (v : Version) (req : Request) :
  receive etag_fn p v req = (p, snd (receive etag_fn p v req)).
Proof. unfold receive. destruct (listening p); reflexivity. Qed.

Lemma receive_all_spec (p : Proc) (reqs : list (Version * Request)) :
  receive_all etag_fn p reqs =
    (p, map (fun vr => snd (receive etag_fn p vr.1 vr.2)) reqs).
Proof.
  induction reqs as [|[v r] reqs IH]; [reflexivity|].
  cbn [receive_all map fst snd].
  rewrite (receive_eq p v r), IH. reflexivity.
Qed.

(** A listening process: what becomes of a request. *)
Lemma receive_started (w : World) (t : ListenTarget) (v : Version) (req : Request) :
  listening (started w) = Some t ->
  snd (receive etag_fn (started w) v req) =
    match on_incoming v req with
    | Dropped => None
    | Answered r => Some r
    | Handed => handle etag_fn [greeting_route] req
    end.
Proof. intros Hl. unfold receive. rewrite Hl, started_stack. reflexivity. Qed.

Lemma on_incoming_handed (v : Version) (req : Request) :
  reaches_application v req -> on_incoming v req = Handed.
Proof.
  intros [Hc Hv]. unfold on_incoming.
  destruct (decide (method req = CONNECT)); [contradiction|].
  destruct (decide (v = http_1_1)) as [E|]; [|reflexivity].
  destruct (Hv E) as [[h Hh] He]. rewrite Hh.
  destruct (headers req !! "expect") as [e|]; [|reflexivity].
  rewrite (He e eq_refl). reflexivity.
Qed.

(** A request that reaches the application of a listening process is
    answered by the application. *)
Lemma receive_handed (w : World) (t : ListenTarget) (v : Version) (req : Request) :
  listening (started w) = Some t ->
  reaches_application v req ->
  snd (receive etag_fn (started w) v req) = handle etag_fn [greeting_route] req.
Proof.
  intros Hl Hr. rewrite (receive_started w t v req Hl), (on_incoming_handed v req Hr).
  reflexivity.
Qed.

Lemma revalidated_unconditional (req : Request) :
  headers req !! "if-none-match" = None ->
  headers req !! "if-modified-since" = None ->
  revalidated etag_fn req = false.
Proof.
  intros Hn Hm. unfold revalidated, req_fresh, fresh.
  rewrite Hn, Hm. cbn [truthy_str negb andb].
  destruct (method req); try reflexivity;
    destruct (_ || _); reflexivity.
Qed.

End Running.

(** * Facts about answers *)
Section Answering.

Variable etag_fn : string -> string.

Lemma port_ext (e1 e2 : gmap string string) :
  e1 !! "PORT" = e2 !! "PORT" -> port e1 = port e2.
Proof. intros H. unfold port, member. rewrite H. reflexivity. Qed.

Lemma fresh_ext (h1 h2 : gmap string string) (e : option string) :
  h1 !! "if-none-match" = h2 !! "if-none-match" ->
  h1 !! "if-modified-since" = h2 !! "if-modified-since" ->
  h1 !! "cache-control" = h2 !! "cache-control" ->
  fresh h1 e = fresh h2 e.
Proof. intros Hn Hm Hc. unfold fresh. rewrite Hn, Hm, Hc. reflexivity. Qed.

Lemma no_cache_empty : no_cache "" = false.
Proof. reflexivity. Qed.

Lemma fresh_iff (h : gmap string string) (e : option string) :
  fresh h e = true <->
  truthy_str (h !! "if-none-match") = true /\
  truthy_str (h !! "if-modified-since") = false /\
  (forall cc, h !! "cache-control" = Some cc -> no_cache cc = false) /\
  (h !! "if-none-match" = Some "*" \/
   exists inm ev,
     h !! "if-none-match" = Some inm /\ e = Some ev /\ ev <> "" /\
     existsb (etag_matches ev) (parseTokenList inm) = true).
Proof.
  unfold fresh.
  destruct (h !! "if-modified-since") as [ms|];
    destruct (h !! "if-none-match") as [nm|];
    destruct (h !! "cache-control") as [cc|];
    cbn [truthy_str];
    repeat match goal with
    | |- context [String.eqb ?a ?b] => destruct (String.eqb_spec a b); subst
    end;
    cbn [negb andb orb];
    try (destruct (no_cache cc) eqn:Hnc);
    try (destruct e as [ev|]); cbn [truthy_str negb andb orb];
    repeat match goal with
    | |- context [String.eqb ?a ?b] => destruct (String.eqb_spec a b); subst
    end;
    cbn [negb andb orb];
    try (destruct (existsb _ _) eqn:Hex); cbn [negb andb orb];
    try rewrite no_cache_empty in *;
    (split;
     [ try discriminate; intros _;
       repeat split; try reflexivity; try discriminate;
       try (intros ? [= <-]; first [assumption | reflexivity]);
       try (left; reflexivity);
       try (right; do 2 eexists; repeat split; eauto; fail)
     | intros (H1 & H2 & H3 & H4); try discriminate; try reflexivity;
       try (specialize (H3 _ eq_refl); congruence);
       try (destruct H4 as [H4|(inm & ev' & H4 & H5 & H6 & H7)];
            simplify_eq; congruence) ]).
Qed.

Lemma fresh_true_inv (h : gmap string string) (e : option string) :
  fresh h e = true ->
  truthy_str (h !! "if-none-match") = true /\
  truthy_str (h !! "if-modified-since") = false /\
  (forall cc, h !! "cache-control" = Some cc -> no_cache cc = false).
Proof. intros H. apply fresh_iff in H as (H1 & H2 & H3 & _). auto. Qed.

Lemma revalidated_ext (req1 req2 : Request) :
  method req1 = method req2 ->
  headers req1 !! "if-none-match" = headers req2 !! "if-none-match" ->
  headers req1 !! "if-modified-since" = headers req2 !! "if-modified-since" ->
  headers req1 !! "cache-control" = headers req2 !! "cache-control" ->
  revalidated etag_fn req1 = revalidated etag_fn req2.
Proof.
  intros Hm Hn Hs Hc. unfold revalidated, req_fresh. rewrite Hm.
  rewrite (fresh_ext _ _ _ Hn Hs Hc). reflexivity.
Qed.

Lemma revalidated_inv (req : Request) :
  revalidated etag_fn req = true ->
  (method req = GET \/ method req = HEAD) /\
  truthy_str (headers req !! "if-none-match") = true /\
  truthy_str (headers req !! "if-modified-since") = false /\
  (forall cc, headers req !! "cache-control" = Some cc -> no_cache cc = false).
Proof.
  unfold revalidated, req_fresh. intros H.
  assert (Hmeth : method req = GET \/ method req = HEAD).
  { destruct (method req); try discriminate; auto. }
  split; [exact Hmeth|].
  apply (fresh_true_inv _ (etag (generate_etag etag_fn "Hello World! 3" new_res))).
  destruct Hmeth as [Hm|Hm]; rewrite Hm in H;
    destruct (_ || _); (discriminate || exact H).
Qed.

(** The [ETag] that [res.send] gives the chunk of a new response. *)
Lemma generated_etag (chunk : string) :
  etag (generate_etag etag_fn chunk new_res) =
    if decide (etag_fn chunk = "") then None else Some (etag_fn chunk).
Proof.
  unfold generate_etag. cbn [etag new_res truthy_str negb andb].
  destruct (String.eqb_spec (etag_fn chunk) ""); case_decide; try congruence;
    reflexivity.
Qed.

(** When [res.send] finds a request fresh against the greeting, said in
    terms of the request alone. *)
Lemma revalidated_iff (req : Request) :
  revalidated etag_fn req = true <->
  (method req = GET \/ method req = HEAD) /\
  truthy_str (headers req !! "if-none-match") = true /\
  truthy_str (headers req !! "if-modified-since") = false /\
  (forall cc, headers req !! "cache-control" = Some cc -> no_cache cc = false) /\
  (headers req !! "if-none-match" = Some "*" \/
   exists inm,
     headers req !! "if-none-match" = Some inm /\
     etag_fn "Hello World! 3" <> "" /\
     existsb (etag_matches (etag_fn "Hello World! 3")) (parseTokenList inm) = true).
Proof.
  assert (Hfresh :
    fresh (headers req) (etag (generate_etag etag_fn "Hello World! 3" new_res)) = true <->
    truthy_str (headers req !! "if-none-match") = true /\
    truthy_str (headers req !! "if-modified-since") = false /\
    (forall cc, headers req !! "cache-control" = Some cc -> no_cache cc = false) /\
    (headers req !! "if-none-match" = Some "*" \/
     exists inm,
       headers req !! "if-none-match" = Some inm /\
       etag_fn "Hello World! 3" <> "" /\
       existsb (etag_matches (etag_fn "Hello World! 3")) (parseTokenList inm) = true)).
  { rewrite fresh_iff, generated_etag. split.
    - intros (H1 & H2 & H3 & [H4|(inm & ev & H4 & H5 & H6 & H7)]);
        (split; [exact H1|]); (split; [exact H2|]); (split; [exact H3|]).
      + left. exact H4.
      + right. exists inm. case_decide; [discriminate|].
        injection H5 as <-. auto.
    - intros (H1 & H2 & H3 & [H4|(inm & H4 & H5 & H6)]);
        (split; [exact H1|]); (split; [exact H2|]); (split; [exact H3|]).
      + left. exact H4.
      + right. exists inm, (etag_fn "Hello World! 3").
        case_decide; [contradiction|]. auto. }
  unfold revalidated, req_fresh.
  destruct (generate_etag_status etag_fn "Hello World! 3" new_res) as [-> _].
  cbn [statusCode new_res].
  change ((200 <=? 200) && (200 <? 300) || (200 =? 304)) with true. cbv iota.
  destruct (method req) eqn:Hm;
    first
      [ rewrite Hfresh; split;
        [ intros H; split; [auto|exact H] | intros [_ H]; exact H ]
      | split; [discriminate | intros [[H|H] _]; discriminate H] ].
Qed.

(** The answer of the application, by path and method. *)
Lemma handle_spec (req : Request) :
  handle etag_fn [mkRoute "/" GET (greet etag_fn)] req =
    Some (if decide (path req = "/") then
            if decide (method req = GET) then
              if revalidated etag_fn req
              then mkResponse 304 (Text "")
              else mkResponse 200 (Text "Hello World! 3")
            else if decide (method req = HEAD) then
              mkResponse (if revalidated etag_fn req then 304 else 200) (Text "")
            else if decide (method req = OPTIONS) then
              mkResponse 200 (Text "GET,HEAD")
            else final_handler req
          else final_handler req).
Proof.
  destruct (decide (path req = "/")) as [Hp|Hp].
  - destruct (decide (method req = GET)) as [Hg|Hg];
      [apply handle_get_root; assumption|].
    destruct (decide (method req = HEAD)) as [Hh|Hh];
      [apply handle_head_root; assumption|].
    destruct (decide (method req = OPTIONS)) as [Ho|Ho];
      [apply handle_options_root; assumption|].
    apply handle_unmatched. right. auto.
  - apply handle_unmatched. left. exact Hp.
Qed.

(** The port as the start-up line prints it. *)
Lemma to_string_port (w : World) :
  to_string (port (configured_env w)) = port_text w.
Proof.
  unfold port_text. destruct (configured_env w !! "PORT") as [s|] eqn:Hp.
  - rewrite (port_set _ _ Hp). case_decide; reflexivity.
  - rewrite (port_unset _ Hp). reflexivity.
Qed.

(** The answers of the server itself are never those of the application. *)
Lemma on_incoming_cases (v : Version) (req : Request) :
  (on_incoming v req = Dropped /\ method req = CONNECT) \/
  (on_incoming v req = Answered (mkResponse 400 (Text "")) /\
   method req <> CONNECT /\ v = http_1_1 /\ headers req !! "host" = None) \/
  (on_incoming v req = Answered (mkResponse 417 (Text "")) /\
   method req <> CONNECT /\ v = http_1_1 /\ is_Some (headers req !! "host") /\
   exists e, headers req !! "expect" = Some e /\ continueExpression e = false) \/
  (on_incoming v req = Handed /\ reaches_application v req).
Proof.
  unfold on_incoming, reaches_application.
  destruct (decide (method req = CONNECT)) as [Hc|Hc]; [left; auto|].
  destruct (decide (v = http_1_1)) as [Hv|Hv].
  - destruct (headers req !! "host") as [h|] eqn:Hh; [|right; left; auto].
    destruct (headers req !! "expect") as [e|] eqn:He.
    + destruct (continueExpression e) eqn:Hce.
      * right; right; right. split; [reflexivity|]. split; [exact Hc|].
        intros _. split; [eauto|]. intros e' [= <-]. exact Hce.
      * right; right; left. repeat split; eauto.
    + right; right; right. split; [reflexivity|]. split; [exact Hc|].
      intros _. split; [eauto|]. intros e' [=].
  - right; right; right. split; [reflexivity|]. split; [exact Hc|].
    intros E. contradiction.
Qed.

End Answering.

(** * The properties of the service *)

Import Samples.

(** ** C1: the answer to GET / *)

(** C1, as stated, fails on two kinds of GET /.  One carrying
    [If-None-Match: *] is fresh for [res.send], which answers 304 with an
    empty body, whatever ETag generator is configured.  One carrying
    [Expect: foo] under HTTP/1.1 never reaches the handler: Node's server
    answers 417 itself. *)
Lemma C1_conditional_get_is_304 :
  method conditional_get = GET /\ path conditional_get = "/" /\
  method Scenarios.expecting_get = GET /\ path Scenarios.expecting_get = "/" /\
  forall etag_fn : string -> string,
    listening (started etag_fn bare_world) = Some (TcpPort 3300) /\
    snd (serve etag_fn (started etag_fn bare_world) conditional_get)
      = Some (mkResponse 304 (Text "")) /\
    snd (serve etag_fn (started etag_fn bare_world) conditional_get)
      <> Some (mkResponse 200 (Text "Hello World! 3")) /\
    snd (serve etag_fn (started etag_fn bare_world) Scenarios.expecting_get)
      = Some (mkResponse 417 (Text "")).
Proof.
  do 4 (split; [reflexivity|]). intros etag_fn.
  assert (Hl : listening (started etag_fn bare_world) = Some (TcpPort 3300)).
  { apply started_listening.
    split; [reflexivity|]. split; [discriminate|reflexivity]. }
  assert (Hr : snd (serve etag_fn (started etag_fn bare_world) conditional_get)
               = Some (mkResponse 304 (Text ""))).
  { unfold serve. rewrite (receive_started etag_fn _ _ _ _ Hl).
    change (on_incoming http_1_1 conditional_get) with Handed. cbv iota.
    rewrite handle_get_root by reflexivity.
    assert (Hv : revalidated etag_fn conditional_get = true).
    { apply revalidated_iff. split; [left; reflexivity|].
      split; [reflexivity|]. split; [reflexivity|].
      split; [intros cc [=]|left; reflexivity]. }
    rewrite Hv. reflexivity. }
  split; [exact Hl|]. split; [exact Hr|]. split; [rewrite Hr; discriminate|].
  unfold serve. rewrite (receive_started etag_fn _ _ _ _ Hl). reflexivity.
Qed.

(** C1 (amended): for every GET request to [/] that reaches the
    application (not one that Node's server answers itself: under HTTP/1.1
    it carries a [Host] header and no [Expect] header other than
    [100-continue]) the answer is either status 200 with the body exactly
    "Hello World! 3", or status 304 with an empty body.  It is the 304
    exactly when the request is a conditional one that [res.send] finds
    fresh: [If-None-Match] is not empty, there is no [If-Modified-Since], no
    [no-cache] directive, and [If-None-Match] is [*] or lists the ETag of
    the greeting.  A request without [If-None-Match] always gets the 200. *)
Theorem C1_get_root_answer (etag_fn : string -> string) (w : World)
    (t : ListenTarget) (v : Version) (req : Request) :
  listening (started etag_fn w) = Some t ->
  method req = GET ->
  path req = "/" ->
  reaches_application v req ->
  (snd (receive etag_fn (started etag_fn w) v req)
     = Some (mkResponse 200 (Text "Hello World! 3")) \/
   snd (receive etag_fn (started etag_fn w) v req)
     = Some (mkResponse 304 (Text ""))) /\
  (snd (receive etag_fn (started etag_fn w) v req) = Some (mkResponse 304 (Text ""))
   <->
   truthy_str (headers req !! "if-none-match") = true /\
   truthy_str (headers req !! "if-modified-since") = false /\
   (forall cc, headers req !! "cache-control" = Some cc -> no_cache cc = false) /\
   (headers req !! "if-none-match" = Some "*" \/
    exists inm,
      headers req !! "if-none-match" = Some inm /\
      etag_fn "Hello World! 3" <> "" /\
      existsb (etag_matches (etag_fn "Hello World! 3")) (parseTokenList inm) = true)) /\
  (headers req !! "if-none-match" = None ->
   snd (receive etag_fn (started etag_fn w) v req)
     = Some (mkResponse 200 (Text "Hello World! 3"))).
Proof.
  intros Hl Hm Hp Hr.
  rewrite (receive_handed etag_fn w t v req Hl Hr), handle_get_root by assumption.
  pose proof (revalidated_iff etag_fn req) as Hiff.
  destruct (revalidated etag_fn req) eqn:Hv.
  - destruct (proj1 Hiff eq_refl) as (_ & H1 & H2 & H3 & H4).
    split; [right; reflexivity|]. split.
    + split; [intros _; auto|reflexivity].
    + intros Hn. rewrite Hn in H1. discriminate.
  - split; [left; reflexivity|]. split.
    + split; [discriminate|].
      intros H. assert (Ht : false = true); [|discriminate Ht].
      apply Hiff. split; [left; exact Hm|exact H].
    + reflexivity.
Qed.

(** A GET / with query, headers and body, against a server on port 3300. *)
Lemma C1_get_root_answer_witness :
  snd (receive tag_of (started tag_of bare_world) http_1_1 busy_get) =
    Some (mkResponse 200 (Text "Hello World! 3")).
Proof.
  apply (C1_get_root_answer tag_of bare_world (TcpPort 3300) http_1_1 busy_get);
    try reflexivity.
  split; [discriminate|]. intros _. split; [eexists; reflexivity|]. intros e [=].
Defined.

(** ** C2: how the port is resolved *)

(** C2, as stated, fails on a [PORT] that is set but is no integer: with
    [PORT=abc] the port resolves to the string ["abc"], not to 3300. *)
Lemma C2_non_integer_port_is_kept :
  initial_env world_port_abc !! "PORT" = Some "abc" /\
  decimal "abc" = None /\
  port (configured_env world_port_abc) = VString "abc" /\
  port (configured_env world_port_abc) <> VNumber 3300 /\
  listen_argument (started tag_of world_port_abc) = Some (VString "abc").
Proof.
  split; [reflexivity|]. split; [reflexivity|]. split; [reflexivity|].
  split; [discriminate|reflexivity].
Qed.

(** C2 (amended): for every process environment the listening port
    resolves to the value of [PORT], the string as it is, when that variable
    is present and not empty (so in particular when it parses to an
    integer), and to the fixed default 3300 when it is absent or empty; no
    parsing takes place. *)
Theorem C2_port_resolution (processEnv : gmap string string) :
  port processEnv =
    match processEnv !! "PORT" with
    | Some s => if decide (s = "") then VNumber 3300 else VString s
    | None => VNumber 3300
    end /\
  (forall (s : string) (n : Z),
     processEnv !! "PORT" = Some s -> decimal s = Some n ->
     port processEnv = VString s).
Proof.
  split.
  - destruct (processEnv !! "PORT") as [s|] eqn:H.
    + apply port_set. exact H.
    + apply port_unset. exact H.
  - intros s n H Hd. rewrite (port_set _ _ H).
    case_decide as He; [|reflexivity]. subst s. discriminate.
Qed.

(** ** C3: no [PORT], port 3300 *)

(** C3: when [PORT] is unset, that is when [process.env] has no [PORT] as
    the program reads it (neither the environment the process is given nor
    its [.env] file sets one, [configured_env_unset]), the resolved port is
    3300 and that is where the server binds: [listen] is called with 3300,
    the socket is bound on TCP port 3300 as soon as the system grants it,
    and on nothing else. *)
Theorem C3_unset_port_binds_3300 (etag_fn : string -> string) (w : World) :
  configured_env w !! "PORT" = None ->
  port (env (started etag_fn w)) = VNumber 3300 /\
  listen_argument (started etag_fn w) = Some (VNumber 3300) /\
  (os_grants w (TcpPort 3300) = true ->
   listening (started etag_fn w) = Some (TcpPort 3300)) /\
  (forall t, listening (started etag_fn w) = Some t -> t = TcpPort 3300).
Proof.
  intros H. pose proof (port_unset _ H) as Hp.
  rewrite started_env, started_listen_argument, Hp.
  split; [reflexivity|]. split; [reflexivity|]. split.
  - intros Hg. apply started_listening. rewrite Hp.
    split; [reflexivity|]. split; [discriminate|exact Hg].
  - intros t Ht. apply started_listening in Ht as [Ht _].
    rewrite Hp in Ht. symmetry. exact Ht.
Qed.

(** No [PORT] anywhere, every bind granted. *)
Lemma C3_unset_port_binds_3300_witness :
  listening (started tag_of bare_world) = Some (TcpPort 3300).
Proof.
  apply (C3_unset_port_binds_3300 tag_of bare_world); reflexivity.
Defined.

(** ** C4: [PORT=4000] *)

(** C4: when the environment sets [PORT] to "4000" before start-up, the
    server binds to TCP port 4000 and to no other: [listen] is called once,
    with "4000", which denotes port 4000; the socket is bound there as soon
    as the system grants it, and nowhere else. *)
Theorem C4_port_4000 (etag_fn : string -> string) (w : World) :
  initial_env w !! "PORT" = Some "4000" ->
  listen_calls (started etag_fn w) = [VString "4000"] /\
  listen_target (VString "4000") = TcpPort 4000 /\
  (os_grants w (TcpPort 4000) = true ->
   listening (started etag_fn w) = Some (TcpPort 4000)) /\
  (forall t, listening (started etag_fn w) = Some t -> t = TcpPort 4000).
Proof.
  intros H. apply configured_env_kept in H.
  pose proof (port_set _ _ H) as Hp. cbn in Hp.
  rewrite started_listen_calls, Hp.
  split; [reflexivity|]. split; [reflexivity|]. split.
  - intros Hg. apply started_listening. rewrite Hp.
    split; [reflexivity|]. split; [discriminate|exact Hg].
  - intros t Ht. apply started_listening in Ht as [Ht _].
    rewrite Hp in Ht. symmetry. exact Ht.
Qed.

(** [PORT=4000] in the environment, [PORT=5000] in the file. *)
Lemma C4_port_4000_witness :
  listening (started tag_of world_port_4000) = Some (TcpPort 4000).
Proof.
  apply (C4_port_4000 tag_of world_port_4000); reflexivity.
Defined.

(** ** C5: everything but GET / *)

(** C5, as stated, fails on HEAD /: the method is not GET, yet Express
    hands the request to the GET callback and the answer is 200 (without
    body), not 404.  OPTIONS / is answered 200 with the list of allowed
    methods, by the router itself.  And some requests never reach the
    routing: a CONNECT is dropped without any answer, and GET /foo with
    [Expect: foo] is answered 417 by Node's server. *)
Lemma C5_head_root_is_handled :
  method head_root <> GET /\ path head_root = "/" /\
  method Scenarios.connect_root <> GET /\
  path Scenarios.expecting_get_foo <> "/" /\
  forall etag_fn : string -> string,
    listening (started etag_fn bare_world) = Some (TcpPort 3300) /\
    matching (stack (started etag_fn bare_world)) head_root <> [] /\
    snd (serve etag_fn (started etag_fn bare_world) head_root)
      = Some (mkResponse 200 (Text "")) /\
    snd (serve etag_fn (started etag_fn bare_world) options_root)
      = Some (mkResponse 200 (Text "GET,HEAD")) /\
    snd (serve etag_fn (started etag_fn bare_world) Scenarios.connect_root) = None /\
    snd (serve etag_fn (started etag_fn bare_world) Scenarios.expecting_get_foo)
      = Some (mkResponse 417 (Text "")).
Proof.
  split; [discriminate|]. split; [reflexivity|].
  split; [discriminate|]. split; [discriminate|]. intros etag_fn.
  assert (Hl : listening (started etag_fn bare_world) = Some (TcpPort 3300)).
  { apply started_listening.
    split; [reflexivity|]. split; [discriminate|reflexivity]. }
  split; [exact Hl|]. rewrite started_stack.
  destruct (handle_head_root etag_fn head_root eq_refl eq_refl) as [Hm Hh].
  destruct (handle_options_root etag_fn options_root eq_refl eq_refl) as [_ Ho].
  split; [rewrite Hm; discriminate|].
  unfold serve. rewrite !(receive_started etag_fn _ _ _ _ Hl).
  change (on_incoming http_1_1 head_root) with Handed.
  change (on_incoming http_1_1 options_root) with Handed.
  change (on_incoming http_1_1 Scenarios.connect_root) with Dropped.
  change (on_incoming http_1_1 Scenarios.expecting_get_foo)
    with (Answered (mkResponse 417 (Text ""))).
  cbv iota.
  split; [|split; [exact Ho|split; reflexivity]].
  rewrite Hh, revalidated_unconditional by reflexivity. reflexivity.
Qed.

(** C5 (amended): for every request that reaches the application (not
    CONNECT, and under HTTP/1.1 with a [Host] header and no [Expect] header
    other than [100-continue]) whose path is not [/], or whose method is
    none of GET, HEAD and OPTIONS, no application callback matches and the
    answer is the framework's default 404; the application registers no
    route other than GET [/]. *)
Theorem C5_unmatched_is_404 (etag_fn : string -> string) (w : World)
    (t : ListenTarget) (v : Version) (req : Request) :
  listening (started etag_fn w) = Some t ->
  reaches_application v req ->
  path req <> "/" \/
  (method req <> GET /\ method req <> HEAD /\ method req <> OPTIONS) ->
  matching (stack (started etag_fn w)) req = [] /\
  snd (receive etag_fn (started etag_fn w) v req) = Some (final_handler req) /\
  status (final_handler req) = 404 /\
  map (fun r => (route_method r, route_path r)) (stack (started etag_fn w))
    = [(GET, "/")].
Proof.
  intros Hl Hr H. rewrite (receive_handed etag_fn w t v req Hl Hr), started_stack.
  destruct (handle_unmatched etag_fn req H) as [Hm Hh].
  split; [exact Hm|]. split; [exact Hh|]. split; reflexivity.
Qed.

(** POST / under HTTP/1.1 and GET /foo under HTTP/1.0. *)
Lemma C5_unmatched_is_404_witness :
  snd (receive tag_of (started tag_of bare_world) http_1_1 post_root)
    = Some (mkResponse 404 ErrorDocument) /\
  snd (receive tag_of (started tag_of bare_world) http_1_0 get_foo)
    = Some (mkResponse 404 ErrorDocument).
Proof.
  split.
  - apply (C5_unmatched_is_404 tag_of bare_world (TcpPort 3300) http_1_1 post_root);
      [reflexivity| |].
    + split; [discriminate|]. intros _.
      split; [eexists; reflexivity|]. intros e [=].
    + right. repeat split; discriminate.
  - apply (C5_unmatched_is_404 tag_of bare_world (TcpPort 3300) http_1_0 get_foo);
      [reflexivity| |].
    + split; [discriminate|]. intros [=].
    + left. discriminate.
Defined.

(** ** C6: validity of the port *)

(** C6, as stated, fails: the program checks nothing.  With [PORT=99999]
    the value handed to [listen] is "99999", no TCP port number; [listen]
    throws and the process ends unbound.  With [PORT=abc] the value is
    "abc", no port number either, and the bind is still attempted. *)
Lemma C6_port_is_not_validated :
  listen_calls (started tag_of world_port_99999) = [VString "99999"] /\
  ~ valid_tcp_port (VString "99999") /\
  run tag_of world_port_99999 =
    (Uncaught ERR_SOCKET_BAD_PORT, started tag_of world_port_99999) /\
  listening (started tag_of world_port_99999) = None /\
  listen_calls (started tag_of world_port_abc) = [VString "abc"] /\
  ~ valid_tcp_port (VString "abc") /\
  listening (started tag_of world_port_abc) = Some (Pipe "abc").
Proof.
  split; [reflexivity|].
  split; [intros (n & H & _); vm_compute in H; discriminate|].
  split; [reflexivity|]. split; [reflexivity|]. split; [reflexivity|].
  split; [intros (n & H & _); vm_compute in H; discriminate|reflexivity].
Qed.

(** C6 (amended): the program does not validate the port; it hands
    [listen] the number 3300 when [PORT] is unset or empty and the [PORT]
    string itself otherwise.  In every run in which [PORT] is unset, empty
    or a decimal numeral of at most 65535, the value used to bind is a
    valid TCP port number (the default being the unprivileged 3300), and the
    socket is bound on no other port. *)
Theorem C6_port_validity (etag_fn : string -> string) (w : World) :
  configured_env w !! "PORT" = None \/
  configured_env w !! "PORT" = Some "" \/
  (exists s n, configured_env w !! "PORT" = Some s /\
               decimal s = Some n /\ n <= 65535) ->
  exists v,
    listen_calls (started etag_fn w) = [v] /\
    valid_tcp_port v /\
    (configured_env w !! "PORT" = None \/ configured_env w !! "PORT" = Some "" ->
     v = VNumber 3300 /\ listen_target v = TcpPort 3300 /\ 1024 <= 3300 <= 65535) /\
    (forall t, listening (started etag_fn w) = Some t ->
               exists n, t = TcpPort n /\ listen_target v = TcpPort n /\
                         0 <= n <= 65535 /\ os_grants w t = true).
Proof.
  intros H. exists (port (configured_env w)).
  split; [apply started_listen_calls|].
  assert (Hv : valid_tcp_port (port (configured_env w))).
  { destruct H as [H|[H|(s & n & H & Hd & Hn)]].
    - rewrite (port_unset _ H). exists 3300. split; [reflexivity|lia].
    - rewrite (port_set _ _ H). exists 3300. split; [reflexivity|lia].
    - rewrite (port_set _ _ H). case_decide as He.
      + exists 3300. split; [reflexivity|lia].
      + exists n. rewrite (listen_target_decimal _ _ Hd).
        pose proof (decimal_nonneg _ _ Hd).
        case_decide; [split; [reflexivity|lia]|lia]. }
  split; [exact Hv|]. split.
  - intros [H0|H0].
    + rewrite (port_unset _ H0). split; [reflexivity|]. split; [reflexivity|lia].
    + rewrite (port_set _ _ H0). split; [reflexivity|]. split; [reflexivity|lia].
  - intros t Ht. apply started_listening in Ht as (Ht & _ & Hg).
    destruct Hv as (n & Hn & Hr). exists n.
    split; [congruence|]. split; [assumption|]. split; assumption.
Qed.

(** [PORT=4000]. *)
Lemma C6_port_validity_witness :
  exists v,
    listen_calls (started tag_of world_port_4000) = [v] /\
    valid_tcp_port v /\
    (configured_env world_port_4000 !! "PORT" = None \/
     configured_env world_port_4000 !! "PORT" = Some "" ->
     v = VNumber 3300 /\ listen_target v = TcpPort 3300 /\ 1024 <= 3300 <= 65535) /\
    (forall t, listening (started tag_of world_port_4000) = Some t ->
               exists n, t = TcpPort n /\ listen_target v = TcpPort n /\
                         0 <= n <= 65535 /\ os_grants world_port_4000 t = true).
Proof.
  apply (C6_port_validity tag_of world_port_4000).
  right. right. exists "4000", 4000.
  split; [reflexivity|]. split; [reflexivity|lia].
Defined.

(** ** C7: the start-up line *)



(** ** C8: configuration first *)

(** C8: the [.env] file is loaded and merged into [process.env] strictly
    before [process.env.PORT] is read, and the port is resolved from the
    merged environment; so a non-empty [PORT] supplied by the file, for a
    process whose environment does not set [PORT] itself, is the resolved
    port. *)
Theorem C8_config_before_port (etag_fn : string -> string) (w : World)
    (file : gmap string string) (v : string) :
  env_file w = Some file ->
  file !! "PORT" = Some v ->
  v <> "" ->
  initial_env w !! "PORT" = None ->
  (exists rest,
     events (started etag_fn w)
       = ConfigLoaded :: AppCreated :: EnvRead "PORT" :: rest /\
     (ConfigLoaded ∉ rest) /\ (EnvRead "PORT" ∉ rest)) /\
  env (started etag_fn w) = Dotenv.populate (initial_env w) file /\
  listen_calls (started etag_fn w) = [port (Dotenv.populate (initial_env w) file)] /\
  port (Dotenv.populate (initial_env w) file) = VString v /\
  port (initial_env w) = VNumber 3300.
Proof.
  intros Hf Hv Hne Hi.
  assert (Hc : configured_env w = Dotenv.populate (initial_env w) file).
  { unfold configured_env. rewrite Hf. reflexivity. }
  split.
  - rewrite started_events. unfold startup_events.
    destruct (listening (started etag_fn w)); eexists;
      (split; [reflexivity|]);
      split; intros Hin;
      repeat (apply elem_of_cons in Hin as [Hin|Hin]; [discriminate|]);
      apply elem_of_nil in Hin; exact Hin.
  - rewrite started_env, started_listen_calls, Hc.
    split; [reflexivity|]. split; [reflexivity|]. split.
    + rewrite <- Hc.
      assert (Hl : configured_env w !! "PORT" = Some v).
      { rewrite (configured_env_filled w file "PORT" Hf Hi). exact Hv. }
      rewrite (port_set _ _ Hl). case_decide; [contradiction|reflexivity].
    + apply port_unset. exact Hi.
Qed.

(** [PORT=5000] in the file only. *)
Lemma C8_config_before_port_witness :
  listen_calls (started tag_of world_file_5000) = [VString "5000"].
Proof.
  destruct (C8_config_before_port tag_of world_file_5000 {[ "PORT" := "5000" ]} "5000")
    as (_ & _ & Hc & Hp & _);
    [reflexivity|reflexivity|discriminate|reflexivity|].
  rewrite Hc, Hp. reflexivity.
Defined.

(** ** C9: two GET / requests *)

(** C9, as stated, fails: the answer does depend on the request headers.
    A plain GET / is answered 200 with the greeting, a GET / carrying
    [If-None-Match: *] is answered 304 with an empty body, and one carrying
    [Expect: foo] is answered 417 by Node's server. *)
Lemma C9_headers_change_the_answer :
  method plain_get = GET /\ path plain_get = "/" /\
  method conditional_get = GET /\ path conditional_get = "/" /\
  method Scenarios.expecting_get = GET /\ path Scenarios.expecting_get = "/" /\
  forall etag_fn : string -> string,
    listening (started etag_fn bare_world) = Some (TcpPort 3300) /\
    snd (serve etag_fn (started etag_fn bare_world) plain_get)
      <> snd (serve etag_fn (started etag_fn bare_world) conditional_get) /\
    snd (serve etag_fn (started etag_fn bare_world) plain_get)
      <> snd (serve etag_fn (started etag_fn bare_world) Scenarios.expecting_get).
Proof.
  do 6 (split; [reflexivity|]). intros etag_fn.
  assert (Hl : listening (started etag_fn bare_world) = Some (TcpPort 3300)).
  { apply started_listening.
    split; [reflexivity|]. split; [discriminate|reflexivity]. }
  split; [exact Hl|].
  unfold serve. rewrite !(receive_started etag_fn _ _ _ _ Hl).
  change (on_incoming http_1_1 plain_get) with Handed.
  change (on_incoming http_1_1 conditional_get) with Handed.
  change (on_incoming http_1_1 Scenarios.expecting_get)
    with (Answered (mkResponse 417 (Text ""))).
  cbv iota. rewrite !handle_get_root by reflexivity.
  rewrite (revalidated_unconditional etag_fn plain_get) by reflexivity.
  assert (Hv : revalidated etag_fn conditional_get = true).
  { apply revalidated_iff. split; [left; reflexivity|].
    split; [reflexivity|]. split; [reflexivity|].
    split; [intros cc [=]|left; reflexivity]. }
  rewrite Hv. split; discriminate.
Qed.

(** C9 (amended): any two GET requests to [/] that reach the application
    and carry the same [If-None-Match], [If-Modified-Since] and
    [Cache-Control] headers (in particular none of them) get identical
    answers, whatever their other headers, query, body and HTTP version, and
    whatever requests were handled before them. *)
Theorem C9_same_answer (etag_fn : string -> string) (w : World) (t : ListenTarget)
    (before1 before2 : list (Version * Request))
    (v1 v2 : Version) (req1 req2 : Request) :
  listening (started etag_fn w) = Some t ->
  method req1 = GET -> path req1 = "/" ->
  method req2 = GET -> path req2 = "/" ->
  reaches_application v1 req1 ->
  reaches_application v2 req2 ->
  headers req1 !! "if-none-match" = headers req2 !! "if-none-match" ->
  headers req1 !! "if-modified-since" = headers req2 !! "if-modified-since" ->
  headers req1 !! "cache-control" = headers req2 !! "cache-control" ->
  last (snd (receive_all etag_fn (started etag_fn w) (before1 ++ [(v1, req1)]))) =
  last (snd (receive_all etag_fn (started etag_fn w) (before2 ++ [(v2, req2)]))) /\
  exists r,
    last (snd (receive_all etag_fn (started etag_fn w) (before1 ++ [(v1, req1)])))
      = Some (Some r) /\
    (r = mkResponse 200 (Text "Hello World! 3") \/ r = mkResponse 304 (Text "")).
Proof.
  intros Hl Hm1 Hp1 Hm2 Hp2 Hr1 Hr2 Hn Hs Hc.
  rewrite !receive_all_spec. cbn [fst snd].
  rewrite !map_app. cbn [map fst snd]. rewrite !last_snoc.
  rewrite (receive_handed etag_fn w t v1 req1 Hl Hr1).
  rewrite (receive_handed etag_fn w t v2 req2 Hl Hr2).
  rewrite !handle_get_root by assumption.
  rewrite (revalidated_ext etag_fn req1 req2) by congruence.
  split; [reflexivity|].
  destruct (revalidated etag_fn req2); eexists; (split; [reflexivity|]); auto.
Qed.

(** A plain GET / under HTTP/1.0 after two other requests, and a GET / with
    query, headers and body under HTTP/1.1 on its own. *)
Lemma C9_same_answer_witness :
  last (snd (receive_all tag_of (started tag_of bare_world)
               ([(http_1_1, conditional_get); (http_1_1, post_root)]
                ++ [(http_1_0, plain_get)]))) =
  last (snd (receive_all tag_of (started tag_of bare_world)
               ([] ++ [(http_1_1, busy_get)]))).
Proof.
  apply (C9_same_answer tag_of bare_world (TcpPort 3300)
           [(http_1_1, conditional_get); (http_1_1, post_root)] []
           http_1_0 http_1_1 plain_get busy_get);
    try reflexivity.
  - split; [discriminate|]. intros [=].
  - split; [discriminate|]. intros _.
    split; [eexists; reflexivity|]. intros e [=].
Defined.

(** ** C10: the empty [PORT] *)

(** C10: when the environment sets [PORT] to the empty string the resolved
    port is the default 3300, and among the values [PORT] can be set to the
    empty string is the only one that selects the default. *)
Theorem C10_empty_port_defaults (etag_fn : string -> string) (w : World) (s : string) :
  initial_env w !! "PORT" = Some s ->
  (s = "" -> listen_calls (started etag_fn w) = [VNumber 3300]) /\
  (port (env (started etag_fn w)) = VNumber 3300 <-> s = "") /\
  (s <> "" -> listen_calls (started etag_fn w) = [VString s]).
Proof.
  intros H. apply configured_env_kept in H.
  rewrite started_env, started_listen_calls, (port_set _ _ H).
  case_decide as He.
  - split; [reflexivity|]. split; [tauto|contradiction].
  - split; [contradiction|]. split; [|reflexivity].
    split; [discriminate|contradiction].
Qed.

(** [PORT] set to the empty string, [PORT=5000] in the file. *)
Lemma C10_empty_port_defaults_witness :
  listen_calls (started tag_of world_port_empty) = [VNumber 3300].
Proof.
  apply (C10_empty_port_defaults tag_of world_port_empty ""); reflexivity.
Defined.


(** * Further properties of the service *)

Import Scenarios.

(** ** Start-up failures *)

(** X1: when [listen] is given a usable target and the system refuses the
    bind (the port is taken, or not permitted), start-up ends with the
    uncaught listen error: no socket is bound, nothing is written, the
    callback never runs. *)
Theorem X1_refused_bind_is_fatal (etag_fn : string -> string) (w : World) :
  listen_target (port (configured_env w)) <> BadPort ->
  os_grants w (listen_target (port (configured_env w))) = false ->
  fst (run etag_fn w) = Uncaught ListenError /\
  listening (started etag_fn w) = None /\
  stdout (started etag_fn w) = [] /\
  events (started etag_fn w) = startup_events w.
Proof.
  intros Hb Hg.
  assert (Hl : listening (started etag_fn w) = None).
  { destruct (listening (started etag_fn w)) as [t|] eqn:Ht; [|reflexivity].
    apply started_listening in Ht as (Ht & _ & Hg'). congruence. }
  rewrite started_completion, started_stdout, started_events, Hl.
  case_decide; [contradiction|]. repeat split; reflexivity.
Qed.

(** Default port, every bind refused. *)
Lemma X1_refused_bind_is_fatal_witness :
  fst (run Samples.tag_of world_port_taken) = Uncaught ListenError /\
  listening (started Samples.tag_of world_port_taken) = None /\
  stdout (started Samples.tag_of world_port_taken) = [] /\
  events (started Samples.tag_of world_port_taken) = startup_events world_port_taken.
Proof.
  apply (X1_refused_bind_is_fatal Samples.tag_of world_port_taken);
    [discriminate|reflexivity].
Defined.

(** X2: a [PORT] that is a decimal numeral above 65535 ends start-up with
    ERR_SOCKET_BAD_PORT before any bind is tried, whatever the system would
    grant: no socket, no output. *)
Theorem X2_oversized_port_is_fatal (etag_fn : string -> string) (w : World)
    (s : string) (n : Z) :
  configured_env w !! "PORT" = Some s ->
  decimal s = Some n ->
  65535 < n ->
  fst (run etag_fn w) = Uncaught ERR_SOCKET_BAD_PORT /\
  listen_calls (started etag_fn w) = [VString s] /\
  listening (started etag_fn w) = None /\
  stdout (started etag_fn w) = [] /\
  (forall t, Bound t ∉ events (started etag_fn w)).
Proof.
  intros Hp Hd Hn.
  assert (Hs : s <> "") by (intros ->; discriminate).
  assert (Hv : port (configured_env w) = VString s).
  { rewrite (port_set _ _ Hp). case_decide; [contradiction|reflexivity]. }
  assert (Ht : listen_target (port (configured_env w)) = BadPort).
  { rewrite Hv, (listen_target_decimal _ _ Hd). case_decide; [lia|reflexivity]. }
  assert (Hl : listening (started etag_fn w) = None).
  { destruct (listening (started etag_fn w)) as [t|] eqn:Hl; [|reflexivity].
    apply started_listening in Hl as (Hl & Hb & _). congruence. }
  rewrite started_completion, started_listen_calls, started_stdout,
    started_events, Hl, Hv.
  rewrite Hv in Ht. case_decide; [|contradiction].
  repeat split; try reflexivity.
  intros t Hin. unfold startup_events in Hin.
  repeat (apply elem_of_cons in Hin as [Hin|Hin]; [discriminate|]).
  apply elem_of_nil in Hin. exact Hin.
Qed.

(** [PORT=99999]. *)
Lemma X2_oversized_port_is_fatal_witness :
  fst (run Samples.tag_of Samples.world_port_99999) = Uncaught ERR_SOCKET_BAD_PORT.
Proof.
  apply (X2_oversized_port_is_fatal Samples.tag_of Samples.world_port_99999 "99999" 99999);
    [reflexivity|reflexivity|lia].
Defined.


(** ** The environment *)

(** X4: a missing or unreadable [.env] is not an error: start-up runs
    exactly as with an empty file, on the environment the process was
    given. *)
Theorem X4_missing_env_file (etag_fn : string -> string)
    (e : gmap string string) (g : ListenTarget -> bool) :
  run etag_fn (mkWorld e None g) = run etag_fn (mkWorld e (Some ∅) g) /\
  env (started etag_fn (mkWorld e None g)) = e.
Proof.
  assert (Hc : configured_env (mkWorld e (Some ∅) g) = configured_env (mkWorld e None g)).
  { unfold configured_env, Dotenv.config, Dotenv.populate. cbn.
    apply (right_id_L ∅ (∪)). }
  split.
  - rewrite !run_eq. unfold startup_events. rewrite Hc. reflexivity.
  - rewrite started_env. reflexivity.
Qed.

(** X5: after start-up every variable the process was given still has its
    value, the file having supplied only the variables that were missing;
    nothing later in the program changes [process.env]. *)
Theorem X5_environment_after_startup (etag_fn : string -> string) (w : World)
    (k : string) :
  env (started etag_fn w) !! k =
    match initial_env w !! k with
    | Some s => Some s
    | None =>
        match env_file w with
        | Some file => file !! k
        | None => None
        end
    end.
Proof.
  rewrite started_env.
  destruct (initial_env w !! k) as [s|] eqn:Hi.
  - apply configured_env_kept. exact Hi.
  - destruct (env_file w) as [file|] eqn:Hf.
    + apply configured_env_filled; assumption.
    + unfold configured_env. rewrite Hf. exact Hi.
Qed.

(** X6: of the whole environment and [.env] file only [PORT] matters: two
    worlds that agree on the [PORT] the program reads and on what the system
    grants start up identically. *)
Theorem X6_only_port_matters (etag_fn : string -> string) (w1 w2 : World) :
  configured_env w1 !! "PORT" = configured_env w2 !! "PORT" ->
  (forall t, os_grants w1 t = os_grants w2 t) ->
  fst (run etag_fn w1) = fst (run etag_fn w2) /\
  listening (started etag_fn w1) = listening (started etag_fn w2) /\
  stdout (started etag_fn w1) = stdout (started etag_fn w2) /\
  events (started etag_fn w1) = events (started etag_fn w2) /\
  stack (started etag_fn w1) = stack (started etag_fn w2).
Proof.
  intros Hp Hg. apply port_ext in Hp.
  assert (Hl : listening (started etag_fn w1) = listening (started etag_fn w2)).
  { destruct (listening (started etag_fn w1)) as [t|] eqn:H1.
    - symmetry. apply started_listening.
      apply started_listening in H1 as (Ht & Hb & Ho).
      rewrite <- Hp, <- Hg. auto.
    - destruct (listening (started etag_fn w2)) as [t|] eqn:H2; [|reflexivity].
      apply started_listening in H2 as (Ht & Hb & Ho).
      rewrite <- Hp, <- Hg in *.
      assert (H : listening (started etag_fn w1) = Some t)
        by (apply started_listening; auto).
      congruence. }
  rewrite !started_completion, !started_stdout, !started_events, !started_stack.
  unfold startup_events. rewrite Hl, Hp.
  repeat split; reflexivity.
Qed.

(** [PORT=4000] with other variables and a file that sets [PORT] too,
    against [PORT=4000] alone. *)
Lemma X6_only_port_matters_witness :
  stdout (started Samples.tag_of world_noisy)
    = stdout (started Samples.tag_of Samples.world_port_4000).
Proof.
  apply (X6_only_port_matters Samples.tag_of world_noisy Samples.world_port_4000);
    reflexivity.
Defined.

(** X7: whenever the server is bound to a TCP port, the text after
    [localhost:] in the start-up line is the resolved port as it was spelled
    (3300, or the [PORT] string), and that text, read the way [listen] reads
    a string, is the port number handed to the bind; if the text is a
    decimal numeral it is the numeral of that port, leading zeros
    included. *)
Theorem X7_line_names_the_port (etag_fn : string -> string) (w : World) (n : Z) :
  listening (started etag_fn w) = Some (TcpPort n) ->
  stdout (started etag_fn w) = ["Server running on http://localhost:" ++ port_text w] /\
  listen_target (VString (port_text w)) = TcpPort n /\
  0 <= n <= 65535 /\
  (forall m, decimal (port_text w) = Some m -> m = n).
Proof.
  intros Hl. rewrite started_stdout, Hl, to_string_port.
  apply started_listening in Hl as (Ht & _ & _).
  split; [reflexivity|].
  assert (Hp : listen_target (VString (port_text w)) = TcpPort n).
  { unfold port_text. destruct (configured_env w !! "PORT") as [s|] eqn:Hp.
    - rewrite (port_set _ _ Hp) in Ht. case_decide; [|exact Ht].
      rewrite <- Ht. reflexivity.
    - rewrite (port_unset _ Hp) in Ht. rewrite <- Ht. reflexivity. }
  split; [exact Hp|]. split; [exact (listen_target_range _ _ Hp)|].
  intros m Hm. rewrite (listen_target_decimal _ _ Hm) in Hp.
  case_decide; [|discriminate]. congruence.
Qed.

(** [PORT=0080]: bound on port 80, shown as 0080. *)
Lemma X7_line_names_the_port_witness :
  stdout (started Samples.tag_of world_port_0080)
    = ["Server running on http://localhost:" ++ port_text world_port_0080] /\
  listen_target (VString (port_text world_port_0080)) = TcpPort 80 /\
  0 <= 80 <= 65535 /\
  (forall m, decimal (port_text world_port_0080) = Some m -> m = 80).
Proof.
  apply (X7_line_names_the_port Samples.tag_of world_port_0080 80). reflexivity.
Defined.

(** ** Answers *)

(** X8: a listening server answers every request but CONNECT, which it
    drops without a word.  The status is 200, 304, 400, 404 or 417: 400
    exactly for an HTTP/1.1 request without [Host], 417 exactly for an
    HTTP/1.1 request with [Host] and an [Expect] other than [100-continue],
    both from Node's server and without body; and the greeting is sent only
    with status 200 in answer to a GET of [/]. *)
Theorem X8_every_request_is_answered (etag_fn : string -> string) (w : World)
    (t : ListenTarget) (v : Version) (req : Request) :
  listening (started etag_fn w) = Some t ->
  (method req = CONNECT ->
   snd (receive etag_fn (started etag_fn w) v req) = None) /\
  (method req <> CONNECT ->
   exists r,
     snd (receive etag_fn (started etag_fn w) v req) = Some r /\
     (status r = 200 \/ status r = 304 \/ status r = 400 \/
      status r = 404 \/ status r = 417) /\
     (status r = 400 <-> v = http_1_1 /\ headers req !! "host" = None) /\
     (status r = 417 <->
      v = http_1_1 /\ is_Some (headers req !! "host") /\
      exists e, headers req !! "expect" = Some e /\ continueExpression e = false) /\
     (status r = 400 \/ status r = 417 -> payload r = Text "") /\
     (payload r = Text "Hello World! 3" ->
      status r = 200 /\ method req = GET /\ path req = "/")).
Proof.
  intros Hl. rewrite (receive_started etag_fn w t v req Hl).
  destruct (on_incoming_cases v req)
    as [[-> Hc]|[(-> & Hc & Hv & Hh)|[(-> & Hc & Hv & Hh & e & He & Hce)|[-> Hr]]]].
  - split; [reflexivity|contradiction].
  - split; [contradiction|]. intros _. eexists. split; [reflexivity|].
    cbn [status payload]. split; [auto|]. split; [tauto|].
    split; [|split; [reflexivity|discriminate]].
    split; [discriminate|]. intros (_ & [h Hh'] & _). congruence.
  - split; [contradiction|]. intros _. eexists. split; [reflexivity|].
    cbn [status payload]. split; [auto 6|].
    split; [split; [discriminate|intros [_ Hn]; destruct Hh; congruence]|].
    split; [split; [intros _; eauto 6|reflexivity]|].
    split; [reflexivity|discriminate].
  - split; [intros Hc; destruct Hr; contradiction|]. intros _.
    rewrite handle_spec. eexists. split; [reflexivity|].
    assert (Hno400 : ~ (v = http_1_1 /\ headers req !! "host" = None)).
    { intros [Hv Hn]. destruct Hr as [_ Hr]. destruct (Hr Hv) as [[h Hh] _].
      congruence. }
    assert (Hno417 : ~ (v = http_1_1 /\ is_Some (headers req !! "host") /\
                        exists e, headers req !! "expect" = Some e /\
                                  continueExpression e = false)).
    { intros (Hv & _ & e & He & Hce). destruct Hr as [_ Hr].
      destruct (Hr Hv) as [_ Hr']. rewrite (Hr' e He) in Hce. discriminate. }
    repeat case_decide; try destruct (revalidated etag_fn req);
      unfold final_handler; cbn [status payload];
      (split; [auto 6|]);
      (split; [split; [discriminate|intros Hx; destruct (Hno400 Hx)]|]);
      (split; [split; [discriminate|intros Hx; destruct (Hno417 Hx)]|]);
      (split; [intros [Hx|Hx]; discriminate Hx|]);
      intros Hp; try discriminate Hp; auto;
      case_decide; discriminate Hp.
Qed.

(** A DELETE of an unknown path. *)
Lemma X8_every_request_is_answered_witness :
  exists r,
    snd (receive Samples.tag_of (started Samples.tag_of Samples.bare_world) http_1_1
           (mkRequest DELETE "/users/7" "" Samples.to_localhost "")) = Some r /\
    status r = 404.
Proof.
  destruct (X8_every_request_is_answered Samples.tag_of Samples.bare_world
              (TcpPort 3300) http_1_1
              (mkRequest DELETE "/users/7" "" Samples.to_localhost "") eq_refl)
    as [_ H].
  destruct (H ltac:(discriminate)) as (r & Hr & _).
  exists r. split; [exact Hr|].
  injection Hr as <-. reflexivity.
Defined.

(** X9: the answer depends on the request only through its HTTP version,
    its method, its path, whether it has a [Host] header, and the headers
    [Expect], [If-None-Match], [If-Modified-Since] and [Cache-Control]:
    query string, body and every other header are never looked at. *)
Theorem X9_what_the_answer_depends_on (etag_fn : string -> string) (w : World)
    (v : Version) (req1 req2 : Request) :
  method req1 = method req2 ->
  path req1 = path req2 ->
  (is_Some (headers req1 !! "host") <-> is_Some (headers req2 !! "host")) ->
  headers req1 !! "expect" = headers req2 !! "expect" ->
  headers req1 !! "if-none-match" = headers req2 !! "if-none-match" ->
  headers req1 !! "if-modified-since" = headers req2 !! "if-modified-since" ->
  headers req1 !! "cache-control" = headers req2 !! "cache-control" ->
  snd (receive etag_fn (started etag_fn w) v req1) =
  snd (receive etag_fn (started etag_fn w) v req2).
Proof.
  intros Hm Hp Hh He Hn Hs Hc.
  destruct (listening (started etag_fn w)) as [t|] eqn:Hl.
  - rewrite !(receive_started etag_fn w t v _ Hl), !handle_spec.
    rewrite (revalidated_ext etag_fn req1 req2 Hm Hn Hs Hc).
    assert (Ho : on_incoming v req1 = on_incoming v req2).
    { unfold on_incoming. rewrite Hm, He.
      destruct (headers req1 !! "host") as [h1|] eqn:H1;
        destruct (headers req2 !! "host") as [h2|] eqn:H2; try reflexivity.
      - destruct (proj1 Hh (mk_is_Some _ _ eq_refl)) as [? [=]].
      - destruct (proj2 Hh (mk_is_Some _ _ eq_refl)) as [? [=]]. }
    rewrite Ho. unfold final_handler. rewrite Hm, Hp. reflexivity.
  - unfold receive. rewrite Hl. reflexivity.
Qed.

(** A bare GET / against one with a query, a body and an Accept header. *)
Lemma X9_what_the_answer_depends_on_witness :
  snd (receive Samples.tag_of (started Samples.tag_of Samples.bare_world) http_1_1
         Samples.plain_get) =
  snd (receive Samples.tag_of (started Samples.tag_of Samples.bare_world) http_1_1
         Samples.busy_get).
Proof.
  apply (X9_what_the_answer_depends_on Samples.tag_of Samples.bare_world http_1_1
           Samples.plain_get Samples.busy_get); reflexivity.
Defined.





(** X13: an OPTIONS of [/] that reaches the application is always answered
    200 with the list of methods the route allows, GET and HEAD, whatever
    its other headers; no callback of the application runs for it. *)
Theorem X13_options_root (etag_fn : string -> string) (w : World)
    (t : ListenTarget) (v : Version) (req : Request) :
  listening (started etag_fn w) = Some t ->
  reaches_application v req ->
  method req = OPTIONS ->
  path req = "/" ->
  snd (receive etag_fn (started etag_fn w) v req)
    = Some (mkResponse 200 (Text "GET,HEAD")) /\
  matching (stack (started etag_fn w)) req = [].
Proof.
  intros Hl Hr Hm Hp. rewrite (receive_handed etag_fn w t v req Hl Hr), started_stack.
  destruct (handle_options_root etag_fn req Hm Hp) as [Hn Hh].
  split; assumption.
Qed.

(** OPTIONS / with [If-None-Match: *]. *)
Lemma X13_options_root_witness :
  snd (receive Samples.tag_of (started Samples.tag_of Samples.bare_world) http_1_1
         (mkRequest OPTIONS "/" "" (<[ "if-none-match" := "*" ]> Samples.to_localhost) ""))
    = Some (mkResponse 200 (Text "GET,HEAD")).
Proof.
  apply (X13_options_root Samples.tag_of Samples.bare_world (TcpPort 3300) http_1_1
           (mkRequest OPTIONS "/" "" (<[ "if-none-match" := "*" ]> Samples.to_localhost) ""));
    try reflexivity.
  split; [discriminate|]. intros _. split; [eexists; reflexivity|]. intros e [=].
Defined.

(** X14: a GET of [/] that reaches the application gets the full answer,
    200 with the greeting, whenever it carries a [no-cache] directive, or a
    non-empty [If-Modified-Since], or no [If-None-Match]: whatever else it
    says. *)
Theorem X14_full_answer (etag_fn : string -> string) (w : World)
    (t : ListenTarget) (v : Version) (req : Request) :
  listening (started etag_fn w) = Some t ->
  reaches_application v req ->
  method req = GET ->
  path req = "/" ->
  (exists cc, headers req !! "cache-control" = Some cc /\ no_cache cc = true) \/
  truthy_str (headers req !! "if-modified-since") = true \/
  truthy_str (headers req !! "if-none-match") = false ->
  snd (receive etag_fn (started etag_fn w) v req)
    = Some (mkResponse 200 (Text "Hello World! 3")).
Proof.
  intros Hl Hr Hm Hp H.
  rewrite (receive_handed etag_fn w t v req Hl Hr), handle_get_root by assumption.
  destruct (revalidated etag_fn req) eqn:Hv; [|reflexivity].
  destruct (revalidated_inv etag_fn req Hv) as (_ & Hn & Hi & Hc).
  destruct H as [(cc & Hcc & Hnc)|[H|H]].
  - rewrite (Hc cc Hcc) in Hnc. discriminate.
  - congruence.
  - congruence.
Qed.

(** A reload ([Cache-Control: no-cache]) and a dated request, both with
    [If-None-Match: *]. *)
Lemma X14_full_answer_witness :
  snd (receive Samples.tag_of (started Samples.tag_of Samples.bare_world) http_1_1 reload_get)
    = Some (mkResponse 200 (Text "Hello World! 3")) /\
  snd (receive Samples.tag_of (started Samples.tag_of Samples.bare_world) http_1_1 dated_get)
    = Some (mkResponse 200 (Text "Hello World! 3")).
Proof.
  assert (Hr : forall req, method req <> CONNECT ->
                 is_Some (headers req !! "host") ->
                 headers req !! "expect" = None ->
                 reaches_application http_1_1 req).
  { intros req Hc Hh He. split; [exact Hc|]. intros _.
    split; [exact Hh|]. intros e He'. rewrite He in He'. discriminate. }
  split.
  - apply (X14_full_answer Samples.tag_of Samples.bare_world (TcpPort 3300)
             http_1_1 reload_get); try reflexivity.
    + apply Hr; [discriminate|eexists; reflexivity|reflexivity].
    + left. exists "no-cache". split; reflexivity.
  - apply (X14_full_answer Samples.tag_of Samples.bare_world (TcpPort 3300)
             http_1_1 dated_get); try reflexivity.
    + apply Hr; [discriminate|eexists; reflexivity|reflexivity].
    + right. left. reflexivity.
Defined.
